(** * Lapking-hub: account flow, banner administration, product suggestions

    A shallow embedding of the three source files of the repository:

    - the account page ([loginSchema], [signupSchema], [handleUserDoc],
      [onLoginSubmit], [onSignupSubmit], ...),
    - the banner administration page ([bannerSchema], [BannerForm.onSubmit],
      [BannersPage]),
    - the suggestion flow ([prompt], [suggestCompatibleProductsFlow]).

    JavaScript objects are finite maps from property names to values,
    asynchronous handlers are sequential programs in a state-and-exception
    monad, and the hosted services (identity provider, document store,
    completion model) are explicit parts of the state or oracles. *)

From stdpp Require Import gmap strings list fin_maps sorting numbers pretty.
From Stdlib Require Import ZArith QArith Qcanon Ascii.

Local Close Scope Qc_scope.
Local Close Scope Q_scope.
Local Close Scope Z_scope.

Local Open Scope string_scope.
Local Open Scope list_scope.

(** ** JavaScript values *)

Module JS.

(** A JavaScript number: NaN, the two infinities, or a finite value.
    Finite doubles are rationals; only [Number.isInteger] and literal
    constants are ever used on them. *)
Inductive num :=
| NaN
| Inf (negative : bool)
| Fin (q : Qc).

Definition of_Z (z : Z) : num := Fin (Q2Qc (inject_Z z)).

(** [Number.isInteger]. *)
Definition isInteger (n : num) : bool :=
  match n with
  | Fin q => Pos.eqb (Qden (this q)) 1
  | _ => false
  end.

Inductive val :=
| VUndef
| VNull
| VBool (b : bool)
| VNum (n : num)
| VStr (s : string)
| VServerTimestamp            (* the sentinel returned by serverTimestamp() *)
| VTime (t : Z).              (* a stored Timestamp *)

(** ToBoolean. *)
Definition truthy (v : val) : bool :=
  match v with
  | VUndef | VNull => false
  | VBool b => b
  | VNum NaN => false
  | VNum (Fin q) => negb (Qeq_bool (this q) 0)
  | VNum (Inf _) => true
  | VStr s => negb (String.eqb s EmptyString)
  | VServerTimestamp | VTime _ => true
  end.

(** [a || b]. *)
Definition orElse (a b : val) : val := if truthy a then a else b.

(** [a === b] on primitives. Objects compare by reference, which is not
    tracked: the schemas compare strings and booleans only. *)
Definition strictEq (a b : val) : bool :=
  match a, b with
  | VUndef, VUndef | VNull, VNull => true
  | VBool x, VBool y => Bool.eqb x y
  | VNum (Fin x), VNum (Fin y) => Qeq_bool (this x) (this y)
  | VNum (Inf x), VNum (Inf y) => Bool.eqb x y
  | VStr x, VStr y => String.eqb x y
  | _, _ => false
  end.

(** [typeof], as zod's [getParsedType] names it. *)
Definition typeName (v : val) : string :=
  match v with
  | VUndef => "undefined"
  | VNull => "null"
  | VBool _ => "boolean"
  | VNum NaN => "nan"
  | VNum _ => "number"
  | VStr _ => "string"
  | VServerTimestamp => "object"
  | VTime _ => "object"
  end.

(** A string is held as the bytes of its UTF-8 encoding; JavaScript's
    [length] counts UTF-16 units: one per code point, two for a code point
    outside the basic plane (a four-byte sequence). [units k] has [k]
    continuation bytes of the current code point still to pass; a stray
    continuation byte counts as one unit, as a decoder's replacement
    character would. *)
Fixpoint units (pending : nat) (s : string) : nat :=
  match s with
  | EmptyString => 0
  | String c rest =>
      let b := nat_of_ascii c in
      if (b <? 128)%nat then S (units 0 rest)
      else if (b <? 192)%nat then
        match pending with
        | S k => units k rest
        | O => S (units 0 rest)
        end
      else if (b <? 224)%nat then S (units 1 rest)
      else if (b <? 240)%nat then S (units 2 rest)
      else S (S (units 3 rest))
  end.

Definition utf16Length (s : string) : nat := units 0 s.

(** Objects; a property that is absent reads as [undefined]. *)
Abbreviation Obj := (gmap string val).

Definition get (o : Obj) (k : string) : val := default VUndef (o !! k).

(** [{ ...base, ...extra }]: the later spread wins. *)
Definition spread (base extra : Obj) : Obj := extra ∪ base.

(** An [Error] with the two properties the handlers read. *)
Record Err := mkErr { err_code : string; err_message : string }.

End JS.
Export JS.

(** ** Handlers: state and exceptions *)

Module Eff.

Inductive outcome (A : Type) :=
| Ok (a : A)
| Throw (e : Err).
Arguments Ok {A} _.
Arguments Throw {A} _.

Definition M (S A : Type) : Type := S → outcome A * S.

Definition ret {S A} (a : A) : M S A := λ s, (Ok a, s).
Definition throw {S A} (e : Err) : M S A := λ s, (Throw e, s).
Definition bind {S A B} (m : M S A) (k : A → M S B) : M S B :=
  λ s, match m s with
       | (Ok a, s') => k a s'
       | (Throw e, s') => (Throw e, s')
       end.
Definition modify {S} (f : S → S) : M S unit := λ s, (Ok tt, f s).
Definition gets {S A} (f : S → A) : M S A := λ s, (Ok (f s), s).

(** [try { body } catch (e) { handler e } finally { cleanup }]. *)
Definition try_catch_finally {S A}
    (body : M S A) (handler : Err → M S A) (cleanup : M S unit) : M S A :=
  λ s,
    let '(r, s1) :=
      match body s with
      | (Ok a, s') => (Ok a, s')
      | (Throw e, s') => handler e s'
      end in
    match cleanup s1 with
    | (Ok _, s2) => (r, s2)
    | (Throw e, s2) => (Throw e, s2)
    end.

(** [try { body } catch (e) { handler e }]. *)
Definition try_catch {S A} (body : M S A) (handler : Err → M S A) : M S A :=
  λ s, match body s with
       | (Ok a, s') => (Ok a, s')
       | (Throw e, s') => handler e s'
       end.

#[global] Instance M_ret {S} : MRet (M S) := λ A, ret.
#[global] Instance M_bind {S} : MBind (M S) := λ A B k m, bind m k.

Definition exec {S A} (m : M S A) (s : S) : S := (m s).2.
Definition result {S A} (m : M S A) (s : S) : outcome A := (m s).1.

End Eff.
Export Eff.



(** ** The runtime's built-ins

    Three library predicates are taken as given: zod's e-mail pattern, the
    [URL] constructor behind [z.string().url()], and [Number(s)] on a
    string. *)

Record Runtime := mkRuntime {
  isEmail : string → bool;
  isUrl : string → bool;
  stringToNumber : string → num;
}.

(** ** The validation library (zod), as far as the schemas use it *)

Module Zod.

Record Issue := mkIssue { path : list string; message : string }.

(** A parse is valid, dirty (issues were added, parsing went on) or
    aborted (wrong type: no value). *)
Inductive status := valid | dirty | aborted.

Definition merge (a b : status) : status :=
  match a, b with
  | aborted, _ | _, aborted => aborted
  | dirty, _ | _, dirty => dirty
  | valid, valid => valid
  end.

Record parsed (A : Type) := mkParsed {
  st : status;
  value : A;
  issues : list Issue;
}.
Arguments mkParsed {A} _ _ _.
Arguments st {A} _.
Arguments value {A} _.
Arguments issues {A} _.

Inductive check :=
| min (n : nat) (m : string)
| email (m : string)
| url (m : string)
| int.

Inductive schema :=
| string_ (cs : list check)                 (* z.string().c1().c2()... *)
| boolean                                   (* z.boolean() *)
| coerce_number (cs : list check)           (* z.coerce.number().c1()... *)
| optional (s : schema)                     (* s.optional() *)
| default_ (s : schema) (d : val)           (* s.default(d) *)
| refine (s : schema) (p : val → bool) (m : string).   (* s.refine(p, {message}) *)

(** An object schema, possibly refined as a whole. *)
Inductive oschema :=
| object (shape : list (string * schema))
| orefine (s : oschema) (p : Obj → bool) (m : string) (at_path : list string).

Section Parse.
Context (rt : Runtime).

(** [Number(v)]. *)
Definition toNumber (v : val) : num :=
  match v with
  | VUndef => NaN
  | VNull => of_Z 0
  | VBool b => of_Z (if b then 1 else 0)
  | VNum n => n
  | VStr s => stringToNumber rt s
  | VServerTimestamp | VTime _ => NaN
  end.

Definition invalid_type (expected : string) (v : val) : string :=
  match v with
  | VUndef => "Required"
  | _ => "Expected " +:+ expected +:+ ", received " +:+ typeName v
  end.

(** One check of a string; a failing check adds its issue and parsing
    goes on. *)
Definition string_check (p : list string) (s : string) (c : check) : list Issue :=
  match c with
  | min n m => if (utf16Length s <? n)%nat then [mkIssue p m] else []
  | email m => if isEmail rt s then [] else [mkIssue p m]
  | url m => if isUrl rt s then [] else [mkIssue p m]
  | int => []
  end.

Definition number_check (p : list string) (n : num) (c : check) : list Issue :=
  match c with
  | int => if isInteger n then [] else [mkIssue p "Expected integer, received float"]
  | _ => []
  end.

Definition of_issues (v : val) (found : list Issue) : parsed val :=
  mkParsed (match found with [] => valid | _ => dirty end) v found.

Fixpoint parse (s : schema) (p : list string) (v : val) : parsed val :=
  match s with
  | string_ cs =>
      match v with
      | VStr str => of_issues v (flat_map (string_check p str) cs)
      | _ => mkParsed aborted VUndef [mkIssue p (invalid_type "string" v)]
      end
  | boolean =>
      match v with
      | VBool _ => mkParsed valid v []
      | _ => mkParsed aborted VUndef [mkIssue p (invalid_type "boolean" v)]
      end
  | coerce_number cs =>
      match toNumber v with
      | NaN => mkParsed aborted VUndef [mkIssue p (invalid_type "number" (VNum NaN))]
      | n => of_issues (VNum n) (flat_map (number_check p n) cs)
      end
  | optional s' =>
      match v with
      | VUndef => mkParsed valid VUndef []
      | _ => parse s' p v
      end
  | default_ s' d =>
      match v with
      | VUndef => parse s' p d
      | _ => parse s' p v
      end
  | refine s' pred m =>
      let r := parse s' p v in
      match st r with
      | aborted => r
      | _ => if pred (value r) then r
             else mkParsed dirty (value r) (issues r ++ [mkIssue p m])
      end
  end.

(** The fields of an object, in the order of the shape. Unknown keys of
    the input are stripped; a key whose parsed value is [undefined] is
    kept only if the input had it. *)
Fixpoint parse_shape (sh : list (string * schema)) (data : Obj) : parsed Obj :=
  match sh with
  | [] => mkParsed valid ∅ []
  | (k, s) :: sh' =>
      let r := parse s [k] (get data k) in
      let rest := parse_shape sh' data in
      let keep :=
        match value r with
        | VUndef => bool_decide (is_Some (data !! k))
        | _ => true
        end in
      mkParsed (merge (st r) (st rest))
               (if keep then <[k := value r]> (value rest) else value rest)
               (issues r ++ issues rest)
  end.

(** A refinement of the whole object runs unless the object aborted. *)
Fixpoint oparse (s : oschema) (data : Obj) : parsed Obj :=
  match s with
  | object sh => parse_shape sh data
  | orefine s' pred m at_path =>
      let r := oparse s' data in
      match st r with
      | aborted => r
      | _ => if pred (value r) then r
             else mkParsed dirty (value r) (issues r ++ [mkIssue at_path m])
      end
  end.

Inductive safe_result :=
| Success (data : Obj)
| Failure (errors : list Issue).

Definition safeParse (s : oschema) (data : Obj) : safe_result :=
  let r := oparse s data in
  match st r with
  | valid => Success (value r)
  | _ => Failure (issues r)
  end.

End Parse.

End Zod.

(** ** The document store (Firestore), as the pages use it *)

Module Firestore.

(** What [useFirestore()] yields once the SDK is initialised; before
    that the hook yields [null], here [None]. *)
Inductive Handle : Set := App.

(** [doc(firestore, collection, id)]. *)
Abbreviation Ref := (string * string)%type.

Inductive op :=
| Get (r : Ref)
| Set_ (r : Ref)
| Update (r : Ref)
| Add (collection : string)
| Delete (r : Ref).

(** The hosted store: its documents, the server's clock, the counter
    behind generated ids, and which operations it rejects (offline,
    security rules, invalid data) with which error. *)
Record Backend := mkBackend {
  docs : gmap (string * string) Obj;
  now : Z;
  ids : nat;
  rejects : op → option Err;
}.

Definition with_docs (f : gmap (string * string) Obj → gmap (string * string) Obj)
    (b : Backend) : Backend :=
  mkBackend (f (docs b)) (now b) (ids b) (rejects b).

(** The server replaces the [serverTimestamp()] sentinel by its time. *)
Definition resolve (t : Z) (data : Obj) : Obj :=
  (λ v, match v with VServerTimestamp => VTime t | _ => v end) <$> data.

Definition guard (o : op) : M Backend unit :=
  λ b, match rejects b o with
       | Some e => (Throw e, b)
       | None => (Ok tt, b)
       end.

(** [getDoc(ref)]: the snapshot; [exists()] is [is_Some]. *)
Definition getDoc (r : Ref) : M Backend (option Obj) :=
  guard (Get r) ;; gets (λ b, docs b !! r).

(** [setDoc(ref, data)]: create or overwrite. *)
Definition setDoc (r : Ref) (data : Obj) : M Backend unit :=
  guard (Set_ r) ;; modify (λ b, with_docs (insert r (resolve (now b) data)) b).

(** [updateDoc(ref, data)]: only the given fields are written; fails on
    a document that does not exist. *)
Definition updateDoc (r : Ref) (data : Obj) : M Backend unit :=
  guard (Update r) ;;
  old ← gets (λ b, docs b !! r) ;
  match old with
  | None => throw (mkErr "not-found" "No document to update")
  | Some o => modify (λ b, with_docs (insert r (resolve (now b) data ∪ o)) b)
  end.

(** [addDoc(collection, data)]: a new document under a generated id. *)
Definition addDoc (c : string) (data : Obj) : M Backend Ref :=
  guard (Add c) ;;
  n ← gets ids ;
  let r := (c, "auto-" +:+ pretty n) in
  modify (λ b, mkBackend (<[r := resolve (now b) data]> (docs b))
                         (now b) (S (ids b)) (rejects b)) ;;
  mret r.

(** [deleteDoc(ref)]. *)
Definition deleteDoc (r : Ref) : M Backend unit :=
  guard (Delete r) ;; modify (with_docs (delete r)).

End Firestore.
Export Firestore.

(** A handler of a page runs store operations on the page's own state. *)
Definition zoom {S T A} (proj : S → T) (put : T → S → S) (m : M T A) : M S A :=
  λ s, let '(r, t) := m (proj s) in (r, put t s).

(** A notification, as passed to [toast]. *)
Record Toast := mkToast {
  destructive : bool;
  title : string;
  description : option string;
}.

(** ** The account page *)

Module Account.

(** *** Schemas for form validation *)

Definition loginSchema : Zod.oschema :=
  Zod.object
    [ ("email", Zod.string_ [Zod.email "Invalid email address."]);
      ("password", Zod.string_ [Zod.min 1 "Password is required."]);
      ("rememberMe", Zod.default_ Zod.boolean (VBool false)) ].

(** The [z.object({...})] of [signupSchema]. *)
Definition signupShape : list (string * Zod.schema) :=
  [ ("name", Zod.string_ [Zod.min 2 "Name must be at least 2 characters."]);
    ("email", Zod.string_ [Zod.email "Invalid email address."]);
    ("phone", Zod.string_ [Zod.min 10 "Enter a valid 10-digit phone number."]);
    ("password", Zod.string_ [Zod.min 6 "Password must be at least 6 characters."]);
    ("confirmPassword", Zod.string_ []);
    ("agreeToTerms",
      Zod.refine Zod.boolean (λ val, strictEq val (VBool true))
        "You must accept the terms and conditions.") ].

Definition signupSchema : Zod.oschema :=
  Zod.orefine
    (Zod.object signupShape)
    (λ data, strictEq (get data "password") (get data "confirmPassword"))
    "Passwords don't match."
    ["confirmPassword"].

(** The issues the signup schema can raise on the values of the form. *)
Definition nameIssue := Zod.mkIssue ["name"] "Name must be at least 2 characters.".
Definition emailIssue := Zod.mkIssue ["email"] "Invalid email address.".
Definition phoneIssue := Zod.mkIssue ["phone"] "Enter a valid 10-digit phone number.".
Definition passwordIssue := Zod.mkIssue ["password"] "Password must be at least 6 characters.".
Definition termsIssue :=
  Zod.mkIssue ["agreeToTerms"] "You must accept the terms and conditions.".
Definition confirmIssue := Zod.mkIssue ["confirmPassword"] "Passwords don't match.".

Definition forgotPasswordSchema : Zod.oschema :=
  Zod.object
    [ ("email", Zod.string_ [Zod.email "Please enter a valid email address."]) ].

(** *** The identity provider *)

(** The signed-in user, as the provider returns it. *)
Record User := mkUser {
  uid : string;
  email : val;          (* string | null *)
  displayName : val;    (* string | null *)
  phoneNumber : val;    (* string | null *)
}.

(** What the provider answers to each operation; [useAuth()] yields this
    handle or [null]. *)
Record Auth := mkAuth {
  createUserWithEmailAndPassword : val → val → outcome User;
  signInWithEmailAndPassword : val → val → outcome User;
  signInWithPopup : outcome User;
  sendPasswordResetEmail : val → outcome unit;
}.

Inductive Call :=
| CreateUser (email password : val)
| SignIn (email password : val)
| Popup
| ResetEmail (email : val).

(** *** The state of [AuthForm] and of what it talks to *)

Record Page := mkPage {
  loading : bool;
  showForgotPassword : bool;
  loginErrors : list Zod.Issue;
  signupErrors : list Zod.Issue;
  forgotErrors : list Zod.Issue;
  toasts : list Toast;
  pushed : list string;        (* router.push *)
  calls : list Call;           (* requests sent to the identity provider *)
  store : Backend;
}.

Definition setLoading (b : bool) : M Page unit :=
  modify (λ s, mkPage b (showForgotPassword s) (loginErrors s) (signupErrors s)
                 (forgotErrors s) (toasts s) (pushed s) (calls s) (store s)).
Definition setShowForgotPassword (b : bool) : M Page unit :=
  modify (λ s, mkPage (loading s) b (loginErrors s) (signupErrors s)
                 (forgotErrors s) (toasts s) (pushed s) (calls s) (store s)).
Definition put_loginErrors (e : list Zod.Issue) (s : Page) : Page :=
  mkPage (loading s) (showForgotPassword s) e (signupErrors s)
    (forgotErrors s) (toasts s) (pushed s) (calls s) (store s).
Definition put_signupErrors (e : list Zod.Issue) (s : Page) : Page :=
  mkPage (loading s) (showForgotPassword s) (loginErrors s) e
    (forgotErrors s) (toasts s) (pushed s) (calls s) (store s).
Definition put_forgotErrors (e : list Zod.Issue) (s : Page) : Page :=
  mkPage (loading s) (showForgotPassword s) (loginErrors s) (signupErrors s)
    e (toasts s) (pushed s) (calls s) (store s).
Definition toast (t : Toast) : M Page unit :=
  modify (λ s, mkPage (loading s) (showForgotPassword s) (loginErrors s) (signupErrors s)
                 (forgotErrors s) (toasts s ++ [t]) (pushed s) (calls s) (store s)).
Definition router_push (p : string) : M Page unit :=
  modify (λ s, mkPage (loading s) (showForgotPassword s) (loginErrors s) (signupErrors s)
                 (forgotErrors s) (toasts s) (pushed s ++ [p]) (calls s) (store s)).
Definition put_store (b : Backend) (s : Page) : Page :=
  mkPage (loading s) (showForgotPassword s) (loginErrors s) (signupErrors s)
    (forgotErrors s) (toasts s) (pushed s) (calls s) b.

(** A request to the provider: it is recorded, and the provider's answer
    is returned or thrown. *)
Definition request {A} (c : Call) (answer : outcome A) : M Page A :=
  λ s, (answer,
        mkPage (loading s) (showForgotPassword s) (loginErrors s) (signupErrors s)
          (forgotErrors s) (toasts s) (pushed s) (calls s ++ [c]) (store s)).

Definition onStore {A} (m : M Backend A) : M Page A := zoom store put_store m.

(** *** Handlers *)

Definition handleUserDoc (firestore : option Handle)
    (user : User) (additionalData : option Obj) : M Page unit :=
  match firestore with
  | None => mret tt
  | Some _ =>
      let userDocRef := ("users", uid user) in
      userDoc ← onStore (getDoc userDocRef) ;
      match userDoc with
      | None =>
          onStore (setDoc userDocRef
            (spread
               (<["uid" := VStr (uid user)]>
                (<["email" := email user]>
                (<["name" := orElse (displayName user)
                               (get (default ∅ additionalData) "name")]>
                (<["phone" := orElse (orElse (phoneNumber user)
                                        (get (default ∅ additionalData) "phone"))
                                     (VStr EmptyString)]>
                (<["role" := VStr "customer"]>       (* Default role *)
                (<["createdAt" := VServerTimestamp]> ∅))))))
               (default ∅ additionalData)))
      | Some _ =>
          (* If doc exists, do nothing to preserve role and other data. *)
          mret tt
      end
  end.

Definition onLoginSubmit (auth : option Auth) (data : Obj) : M Page unit :=
  setLoading true ;;
  match auth with
  | None => setLoading false
  | Some a =>
      try_catch_finally
        (request (SignIn (get data "email") (get data "password"))
           (signInWithEmailAndPassword a (get data "email") (get data "password")) ;;
         toast (mkToast false "Successfully logged in!" None) ;;
         router_push "/")
        (λ err,
           toast (mkToast true "Login Failed" (Some "Invalid email or password.")))
        (setLoading false)
  end.

Definition onSignupSubmit (auth : option Auth) (firestore : option Handle)
    (data : Obj) : M Page unit :=
  setLoading true ;;
  match auth with
  | None => setLoading false
  | Some a =>
      try_catch_finally
        (user ← request (CreateUser (get data "email") (get data "password"))
                  (createUserWithEmailAndPassword a
                     (get data "email") (get data "password")) ;
         handleUserDoc firestore user
           (Some (<["name" := get data "name"]>
                  (<["phone" := get data "phone"]> ∅))) ;;
         toast (mkToast false "Successfully signed up!" None) ;;
         router_push "/")
        (λ err,
           let message :=
             if String.eqb (err_code err) "auth/email-already-in-use"
             then "An account with this email already exists."
             else err_message err in
           toast (mkToast true "Sign-up Failed" (Some message)))
        (setLoading false)
  end.

Definition handleGoogleSignIn (auth : option Auth) (firestore : option Handle)
    : M Page unit :=
  setLoading true ;;
  match auth with
  | None => setLoading false
  | Some a =>
      try_catch_finally
        (user ← request Popup (signInWithPopup a) ;
         handleUserDoc firestore user None ;;
         toast (mkToast false "Successfully signed in with Google!" None) ;;
         router_push "/")
        (λ err,
           toast (mkToast true "Google Sign-in Failed" (Some (err_message err))))
        (setLoading false)
  end.

Definition handleForgotPassword (auth : option Auth) (data : Obj) : M Page unit :=
  setLoading true ;;
  match auth with
  | None =>
      toast (mkToast true "Error" (Some "Firebase not initialized.")) ;;
      setLoading false
  | Some a =>
      try_catch_finally
        (request (ResetEmail (get data "email"))
           (sendPasswordResetEmail a (get data "email")) ;;
         toast (mkToast false "Password Reset Email Sent"
                  (Some "Check your inbox for a link to reset your password.")) ;;
         setShowForgotPassword false)
        (λ err,
           toast (mkToast true "Error"
                    (Some (if String.eqb (err_code err) "auth/user-not-found"
                           then "No account found with this email."
                           else err_message err))))
        (setLoading false)
  end.

(** [form.handleSubmit(onValid)] with [zodResolver(schema)]: the values
    are validated first; [onValid] receives the parsed data, and is not
    called when validation fails (the issues become the form's errors). *)
Definition handleSubmit (rt : Runtime) (schema : Zod.oschema)
    (put_errors : list Zod.Issue → Page → Page)
    (onValid : Obj → M Page unit) (values : Obj) : M Page unit :=
  match Zod.safeParse rt schema values with
  | Zod.Success data => modify (put_errors []) ;; onValid data
  | Zod.Failure errors => modify (put_errors errors)
  end.

(** The values of the signup form: [useForm<z.infer<typeof signupSchema>>]
    with text inputs and a checkbox holds five strings and a boolean. *)
Record SignupInput := mkSignup {
  in_name : string;
  in_email : string;
  in_phone : string;
  in_password : string;
  in_confirmPassword : string;
  in_agreeToTerms : bool;
}.

Definition formValues (i : SignupInput) : Obj :=
  <["name" := VStr (in_name i)]>
  (<["email" := VStr (in_email i)]>
  (<["phone" := VStr (in_phone i)]>
  (<["password" := VStr (in_password i)]>
  (<["confirmPassword" := VStr (in_confirmPassword i)]>
  (<["agreeToTerms" := VBool (in_agreeToTerms i)]> ∅))))).

(** The values of the login form. *)
Definition loginValues (email password : string) (rememberMe : bool) : Obj :=
  <["email" := VStr email]>
  (<["password" := VStr password]>
  (<["rememberMe" := VBool rememberMe]> ∅)).

(** The profile document of a user. *)
Definition userRef (u : User) : string * string := ("users", uid u).

(** The notification of a failed login. *)
Definition loginFailed : Toast :=
  mkToast true "Login Failed" (Some "Invalid email or password.").

(** The three forms of the page. *)
Definition submitLogin rt auth (values : Obj) : M Page unit :=
  handleSubmit rt loginSchema put_loginErrors (onLoginSubmit auth) values.
Definition submitSignup rt auth firestore (values : Obj) : M Page unit :=
  handleSubmit rt signupSchema put_signupErrors (onSignupSubmit auth firestore) values.
Definition submitForgotPassword rt auth (values : Obj) : M Page unit :=
  handleSubmit rt forgotPasswordSchema put_forgotErrors (handleForgotPassword auth) values.

End Account.

(** ** The banner administration page *)

Module Banners.

(** The [z.object({...})] of [bannerSchema]. *)
Definition bannerShape : list (string * Zod.schema) :=
  [ ("title", Zod.string_ [Zod.min 1 "Title is required"]);
    ("subtitle", Zod.optional (Zod.string_ []));
    ("imageUrl", Zod.string_ [Zod.url "Must be a valid URL"]);
    ("ctaLabel", Zod.optional (Zod.string_ []));
    ("ctaLink", Zod.optional (Zod.string_ []));
    ("isActive", Zod.default_ Zod.boolean (VBool true));
    ("sortOrder", Zod.default_ (Zod.coerce_number [Zod.int]) (VNum (of_Z 0))) ].

Definition bannerSchema : Zod.oschema := Zod.object bannerShape.

(** Modelled from the spec: the [Banner] type of [@/lib/types], which is
    not among the sources. Section 3 gives its fields; [sortOrder] is an
    integer and the two timestamps are instants. *)
Record Banner := mkBanner {
  id : string;
  title : string;
  subtitle : option string;
  imageUrl : string;
  ctaLabel : option string;
  ctaLink : option string;
  isActive : bool;
  sortOrder : Z;
  createdAt : Z;
  updatedAt : Z;
}.

(** *** [BannerForm] *)

(** The form's own state ([loading], its validation errors), the [open]
    flag of the dialog that hosts it, the notifications, the store, and
    a count of the invocations of the [onFinished] prop. *)
Record Form := mkForm {
  loading : bool;
  open : bool;
  errors : list Zod.Issue;
  toasts : list Toast;
  finished : nat;
  store : Backend;
}.

Definition setLoading (b : bool) : M Form unit :=
  modify (λ s, mkForm b (open s) (errors s) (toasts s) (finished s) (store s)).
Definition setOpen (b : bool) : M Form unit :=
  modify (λ s, mkForm (loading s) b (errors s) (toasts s) (finished s) (store s)).
Definition put_errors (e : list Zod.Issue) (s : Form) : Form :=
  mkForm (loading s) (open s) e (toasts s) (finished s) (store s).
Definition toast (t : Toast) : M Form unit :=
  modify (λ s, mkForm (loading s) (open s) (errors s) (toasts s ++ [t]) (finished s) (store s)).
Definition put_store (b : Backend) (s : Form) : Form :=
  mkForm (loading s) (open s) (errors s) (toasts s) (finished s) b.
Definition onStore {A} (m : M Backend A) : M Form A := zoom store put_store m.

(** Calling the [onFinished] prop. *)
Definition call_onFinished (onFinished : M Form unit) : M Form unit :=
  modify (λ s, mkForm (loading s) (open s) (errors s) (toasts s) (S (finished s)) (store s)) ;;
  onFinished.

(** The object handed to [updateDoc] by an edit. *)
Definition updatePayload (data : Obj) : Obj :=
  <["updatedAt" := VServerTimestamp]> data.

(** The object handed to [addDoc] by a creation. *)
Definition createPayload (data : Obj) : Obj :=
  <["updatedAt" := VServerTimestamp]> (<["createdAt" := VServerTimestamp]> data).

Definition onSubmit (firestore : option Handle) (banner : option Banner)
    (onFinished : M Form unit) (data : Obj) : M Form unit :=
  match firestore with
  | None => mret tt
  | Some _ =>
      setLoading true ;;
      try_catch_finally
        (match banner with
         | Some b =>
             let bannerRef := ("banners", id b) in
             onStore (updateDoc bannerRef (updatePayload data)) ;;
             toast (mkToast false "Banner updated successfully" None)
         | None =>
             onStore (addDoc "banners" (createPayload data)) ;;
             toast (mkToast false "Banner added successfully" None)
         end ;;
         call_onFinished onFinished)
        (λ error,
           toast (mkToast true "Error saving banner" (Some (err_message error))))
        (setLoading false)
  end.

(** The document write of a submission: the update of the banner's
    document for an edit, the addition of a document otherwise. *)
Definition write (banner : option Banner) (data : Obj) : M Backend unit :=
  match banner with
  | Some b => updateDoc ("banners", id b) (updatePayload data)
  | None => addDoc "banners" (createPayload data) ;; mret tt
  end.

(** The notifications of a submission. *)
Definition savedToast (banner : option Banner) : Toast :=
  match banner with
  | Some _ => mkToast false "Banner updated successfully" None
  | None => mkToast false "Banner added successfully" None
  end.

Definition errorToast (e : Err) : Toast :=
  mkToast true "Error saving banner" (Some (err_message e)).

(** The document of a banner. *)
Definition bannerRef (b : Banner) : string * string := ("banners", id b).

(** [handleSubmit(onSubmit)] with [zodResolver(bannerSchema)]. *)
Definition handleSubmit (rt : Runtime) (onValid : Obj → M Form unit)
    (values : Obj) : M Form unit :=
  match Zod.safeParse rt bannerSchema values with
  | Zod.Success data => modify (put_errors []) ;; onValid data
  | Zod.Failure errs => modify (put_errors errs)
  end.

(** Both hosts of the form, [BannerRow] (edit) and [BannersPage] (add),
    pass [() => setOpen(false)] as [onFinished]. *)
Definition submit (rt : Runtime) (firestore : option Handle)
    (banner : option Banner) (values : Obj) : M Form unit :=
  handleSubmit rt (onSubmit firestore banner (setOpen false)) values.

(** *** [BannerRow] *)

Definition handleDelete (firestore : option Handle) (banner : Banner) : M Form unit :=
  match firestore with
  | None => mret tt
  | Some _ =>
      try_catch
        (onStore (deleteDoc ("banners", id banner)) ;;
         toast (mkToast false "Banner deleted" None))
        (λ error,
           toast (mkToast true "Error deleting banner" (Some (err_message error))))
  end.

(** *** [BannersPage] *)

Inductive Direction := asc | desc.

Record Query := mkQuery {
  collection : string;
  orderings : list (string * Direction);
}.

Definition orderBy (field : string) (d : Direction) : string * Direction := (field, d).

Definition bannersQuery (firestore : option Handle) : option Query :=
  match firestore with
  | Some _ => Some (mkQuery "banners" [orderBy "sortOrder" asc; orderBy "createdAt" desc])
  | None => None
  end.

(** The fields a query can order banners by. *)
Definition field (name : string) (b : Banner) : option Z :=
  if String.eqb name "sortOrder" then Some (sortOrder b)
  else if String.eqb name "createdAt" then Some (createdAt b)
  else if String.eqb name "updatedAt" then Some (updatedAt b)
  else None.

(** Comparison of two banners under a list of orderings: the first
    ordering that tells them apart decides. *)
Fixpoint compare_by (os : list (string * Direction)) (a b : Banner) : comparison :=
  match os with
  | [] => Eq
  | (f, d) :: os' =>
      match field f a, field f b with
      | Some x, Some y =>
          match (match d with asc => Z.compare x y | desc => Z.compare y x end) with
          | Eq => compare_by os' a b
          | c => c
          end
      | _, _ => compare_by os' a b
      end
  end.

Definition before (os : list (string * Direction)) (a b : Banner) : Prop :=
  compare_by os a b ≠ Gt.

#[global] Instance before_dec os a b : Decision (before os a b).
Proof. unfold before. apply _. Defined.

(** The state of the live subscription. *)
Inductive Subscription :=
| Pending
| Snapshot (documents : list Banner).

Record CollectionResult := mkResult {
  data : option (list Banner);
  isLoading : bool;
}.

(** Modelled from the spec: the [useCollection] hook of [@/firebase],
    which is not among the sources, together with the store's query
    execution. Section 4.2 and section 5: the hook subscribes to the
    collection ordered as the query says and delivers full snapshots;
    while the first snapshot is pending the page is loading. What the
    hook yields for a null query is stated by neither; the branch below
    (no data, not loading) is an assumption, and no property of a page
    with a store handle depends on it. *)
Definition useCollection (q : option Query) (sub : Subscription) : CollectionResult :=
  match q with
  | None => mkResult None false
  | Some q =>
      match sub with
      | Pending => mkResult None true
      | Snapshot documents =>
          mkResult (Some (merge_sort (before (orderings q)) documents)) false
      end
  end.

Inductive Row :=
| SkeletonRow (key : nat)
| BannerRow (banner : Banner)
| EmptyRow.

(** The body of the table. *)
Definition BannersPage (firestore : option Handle) (sub : Subscription) : list Row :=
  let r := useCollection (bannersQuery firestore) sub in
  (if isLoading r then SkeletonRow <$> seq 0 3 else [])
  ++ (BannerRow <$> default [] (data r))
  ++ (if negb (isLoading r) &&
         match data r with Some bs => Nat.eqb (length bs) 0 | None => false end
      then [EmptyRow] else []).

(** Ascending [sortOrder], ties broken by descending [createdAt]. *)
Definition listed_before (a b : Banner) : Prop :=
  (sortOrder a < sortOrder b)%Z ∨
  (sortOrder a = sortOrder b ∧ (createdAt b ≤ createdAt a)%Z).

(** The orderings of [bannersQuery]. *)
Definition bannerOrderings : list (string * Direction) :=
  [orderBy "sortOrder" asc; orderBy "createdAt" desc].

(** The banners shown, top to bottom. *)
Definition rendered (rows : list Row) : list Banner :=
  omap (λ r, match r with BannerRow b => Some b | _ => None end) rows.

End Banners.

(** ** The suggestion flow *)

Module Suggest.

(** *** Input and output, as the two schemas declare them *)

Record CartItem := mkItem { name : string; description : string }.

Record Input := mkInput {
  cartItems : option (list CartItem);     (* .optional() *)
  requirements : option string;           (* .optional() *)
}.

Record Output := mkOutput { suggestions : list string }.

(** *** The template language (Handlebars), as far as the prompt uses it *)

#[warnings="-register-all"] Inductive hval :=
| HUndef
| HStr (s : string)
| HList (items : list hval)
| HObj (fields : list (string * hval)).

#[warnings="-register-all"] Inductive node :=
| Text (s : string)
| Mustache (path : list string)                          (* {{path}} *)
| IfBlock (path : list string) (program inverse : list node)    (* {{#if}}..{{else}}..{{/if}} *)
| EachBlock (path : list string) (program inverse : list node). (* {{#each}}..{{/each}} *)

Fixpoint assoc (k : string) (fields : list (string * hval)) : hval :=
  match fields with
  | [] => HUndef
  | (k', v) :: rest => if String.eqb k k' then v else assoc k rest
  end.

(** A path is resolved from the current context; [this.x] is the path
    [x] there. *)
Fixpoint lookup_path (ctx : hval) (path : list string) : hval :=
  match path with
  | [] => ctx
  | k :: rest =>
      match ctx with
      | HObj fields => lookup_path (assoc k fields) rest
      | _ => HUndef
      end
  end.

(** [Handlebars.Utils.isEmpty]: what [#if] takes for false. *)
Definition isEmpty (v : hval) : bool :=
  match v with
  | HUndef => true
  | HStr s => String.eqb s EmptyString
  | HList [] => true
  | HList (_ :: _) => false
  | HObj _ => false
  end.

Definition escapeChar (c : ascii) : string :=
  if Ascii.eqb c "&"%char then "&amp;"
  else if Ascii.eqb c "<"%char then "&lt;"
  else if Ascii.eqb c ">"%char then "&gt;"
  else if Ascii.eqb c (ascii_of_nat 34) then "&quot;"
  else if Ascii.eqb c "'"%char then "&#x27;"
  else if Ascii.eqb c "`"%char then "&#x60;"
  else if Ascii.eqb c "="%char then "&#x3D;"
  else String c EmptyString.

(** [Handlebars.Utils.escapeExpression] on a string. *)
Fixpoint escapeExpression (s : string) : string :=
  match s with
  | EmptyString => EmptyString
  | String c rest => escapeChar c +:+ escapeExpression rest
  end.

(** What a mustache writes for a value; the template only interpolates
    strings and absent values. *)
Definition interpolate (noEscape : bool) (v : hval) : string :=
  match v with
  | HUndef => EmptyString
  | HStr s => if noEscape then s else escapeExpression s
  | HList _ => EmptyString
  | HObj _ => "[object Object]"
  end.

Definition concat (parts : list string) : string :=
  foldr String.append EmptyString parts.

Fixpoint render (noEscape : bool) (ctx : hval) (n : node) {struct n} : string :=
  let block := fix block (ctx : hval) (ns : list node) {struct ns} : string :=
    match ns with
    | [] => EmptyString
    | n' :: rest => render noEscape ctx n' +:+ block ctx rest
    end in
  match n with
  | Text s => s
  | Mustache path => interpolate noEscape (lookup_path ctx path)
  | IfBlock path program inverse =>
      if isEmpty (lookup_path ctx path) then block ctx inverse else block ctx program
  | EachBlock path program inverse =>
      match lookup_path ctx path with
      | HList (item :: items) =>
          concat ((λ this, block this program) <$> (item :: items))
      | _ => block ctx inverse
      end
  end.

Definition renderAll (noEscape : bool) (ctx : hval) (ns : list node) : string :=
  concat (render noEscape ctx <$> ns).

(** *** The prompt *)

Definition nl : string := String (ascii_of_nat 10) EmptyString.

Definition preamble : string :=
  "You are an AI assistant specializing in suggesting compatible products for an e-commerce platform." +:+ nl +:+
  nl +:+
  "  Based on the items in the user's cart and/or their stated requirements, you will provide a list of product suggestions." +:+ nl +:+
  nl +:+
  "  If the user has items in their cart, use the product names and descriptions to determine what other products might be compatible." +:+ nl +:+
  "  If the user has stated specific requirements, prioritize those requirements when making suggestions." +:+ nl +:+
  nl +:+
  "  Cart Items:" +:+ nl.

(** The [{{#if cartItems}} ... {{else}} ... {{/if}}] block. The block
    tags stand alone on their lines, so those lines leave no text. *)
Definition cartSection : node :=
  IfBlock ["cartItems"]
    [ EachBlock ["cartItems"]
        [ Text "      - "; Mustache ["name"]; Text ": "; Mustache ["description"]; Text nl ]
        [] ]
    [ Text ("    No items in cart." +:+ nl) ].

Definition promptTemplate : list node :=
  [ Text preamble;
    cartSection;
    Text (nl +:+ "  Requirements: ");
    Mustache ["requirements"];
    Text (nl +:+ nl +:+ "  Suggestions:") ].

(** The input as the template sees it: an optional property that is
    absent is not a field of the context. *)
Definition context (input : Input) : hval :=
  HObj
    (match cartItems input with
     | Some items =>
         [("cartItems",
           HList ((λ i, HObj [("name", HStr (name i));
                              ("description", HStr (description i))]) <$> items))]
     | None => []
     end
     ++
     match requirements input with
     | Some r => [("requirements", HStr r)]
     | None => []
     end).

Definition renderPrompt (noEscape : bool) (input : Input) : string :=
  renderAll noEscape (context input) promptTemplate.

(** The request with an empty cart and empty requirements. *)
Definition emptyRequest : Input := mkInput (Some []) (Some EmptyString).

(** The line of the [{{else}}] branch, as the template indents it. *)
Definition noItemsLine : string := "    No items in cart." +:+ nl.

(** One line of the cart-items block. *)
Definition itemLine (noEscape : bool) (i : CartItem) : string :=
  "      - " +:+ interpolate noEscape (HStr (name i)) +:+ ": "
  +:+ interpolate noEscape (HStr (description i)) +:+ nl.

(** *** The remote model and the flow *)

(** Structured data as the model returns it. *)
#[warnings="-register-all"] Inductive json :=
| JNull
| JBool (b : bool)
| JNum (z : Z)
| JStr (s : string)
| JArr (items : list json)
| JObj (fields : list (string * json)).

(** The hosted model: its answer to the [n]-th request with the given
    prompt text. It fails, or yields an output ([JNull] for none). *)
Definition Model : Type := nat → string → outcome json.

(** The state of a run: the requests sent to the model so far. *)
Abbreviation Sent := (list string).

Fixpoint jassoc (k : string) (fields : list (string * json)) : option json :=
  match fields with
  | [] => None
  | (k', v) :: rest => if String.eqb k k' then Some v else jassoc k rest
  end.

Fixpoint strings (items : list json) : option (list string) :=
  match items with
  | [] => Some []
  | JStr s :: rest => cons s <$> strings rest
  | _ :: _ => None
  end.

(** [SuggestCompatibleProductsOutputSchema]: an object whose
    [suggestions] are an array of strings. *)
Definition parseOutput (j : json) : option Output :=
  match j with
  | JObj fields =>
      match jassoc "suggestions" fields with
      | Some (JArr items) => mkOutput <$> strings items
      | _ => None
      end
  | _ => None
  end.

(** [prompt(input)]: one request to the model with the rendered text.
    The template library splits the rendered text at its own markers
    ([<<<dotprompt:role:...>>>] and the like) and can refuse it before any
    request; that path is left out: the texts of a request are taken to
    hold no such marker. *)
Definition prompt (noEscape : bool) (model : Model) (input : Input) : M Sent json :=
  λ sent,
    let text := renderPrompt noEscape input in
    (model (length sent) text, sent ++ [text]).

(** [ai.defineFlow({outputSchema}, body)]: the body's result is checked
    against the output schema; a result that does not conform is an
    error. *)
Definition defineFlow (body : Input → M Sent json) (input : Input) : M Sent Output :=
  output ← body input ;
  match parseOutput output with
  | Some o => mret o
  | None => throw (mkErr "INVALID_ARGUMENT" "Schema validation failed.")
  end.

Definition suggestCompatibleProductsFlow (noEscape : bool) (model : Model)
    : Input → M Sent Output :=
  defineFlow (λ input,
    output ← prompt noEscape model input ;
    mret output).          (* return output!; *)

Definition suggestCompatibleProducts (noEscape : bool) (model : Model)
    (input : Input) : M Sent Output :=
  suggestCompatibleProductsFlow noEscape model input.

End Suggest.

(** ** The account page, signed in *)

Module AccountView.

(** *** [LoggedInAccountView] *)

(** What the view acts on: the notifications, the router, and the
    sign-out requests sent to the identity provider. *)
Record View := mkView {
  toasts : list Toast;
  pushed : list string;
  signOuts : nat;
}.

Definition toast (t : Toast) : M View unit :=
  modify (λ s, mkView (toasts s ++ [t]) (pushed s) (signOuts s)).
Definition router_push (p : string) : M View unit :=
  modify (λ s, mkView (toasts s) (pushed s ++ [p]) (signOuts s)).

(** [signOut(auth)]: the request is counted and the provider's answer
    returned or thrown. *)
Definition signOut (answer : outcome unit) : M View unit :=
  λ s, (answer, mkView (toasts s) (pushed s) (S (signOuts s))).

(** The handler has no [try]: [signOutAnswer] is what the provider
    answers to the sign-out of a handle. *)
Definition handleLogout (auth : option Account.Auth)
    (signOutAnswer : Account.Auth → outcome unit) : M View unit :=
  match auth with
  | None => mret tt
  | Some a =>
      signOut (signOutAnswer a) ;;
      toast (mkToast false "Logged Out" (Some "You've been successfully signed out.")) ;;
      router_push "/"
  end.

(** [userDoc?.role === 'admin']: whether the link to the admin dashboard
    is rendered. *)
Definition showsAdminLink (userDoc : option Obj) : bool :=
  match userDoc with
  | Some d => strictEq (get d "role") (VStr "admin")
  | None => false
  end.

(** *** [AccountPage] *)

Inductive Screen := Spinner | AuthFormScreen | LoggedInScreen.

Definition AccountPage (user : option Account.User)
    (isUserLoading isUserDocLoading : bool) : Screen :=
  if isUserLoading || isUserDocLoading then Spinner
  else match user with
       | None => AuthFormScreen
       | Some _ => LoggedInScreen
       end.

End AccountView.

(** ** Vocabulary of the further properties *)

Module Outcomes.
Import Account.

(** The object [handleUserDoc] hands to [setDoc]. *)
Definition newProfile (user : User) (additionalData : option Obj) : Obj :=
  spread
    (<["uid" := VStr (uid user)]>
     (<["email" := email user]>
     (<["name" := orElse (displayName user) (get (default ∅ additionalData) "name")]>
     (<["phone" := orElse (orElse (phoneNumber user)
                             (get (default ∅ additionalData) "phone"))
                          (VStr EmptyString)]>
     (<["role" := VStr "customer"]>
     (<["createdAt" := VServerTimestamp]> ∅))))))
    (default ∅ additionalData).

(** The additional data of the signup handler. *)
Definition signupData (data : Obj) : option Obj :=
  Some (<["name" := get data "name"]> (<["phone" := get data "phone"]> ∅)).

(** The two callers of [handleUserDoc], which is local to [AuthForm]:
    [onSignupSubmit] with the validated data of the form, and
    [handleGoogleSignIn]; and what each passes as additional data. *)
Inductive Caller :=
| SignupCaller (data : Obj)
| GoogleCaller.

Definition additionalDataOf (c : Caller) : option Obj :=
  match c with
  | SignupCaller data => signupData data
  | GoogleCaller => None
  end.

(** The notifications of the handlers. *)
Definition loggedIn : Toast := mkToast false "Successfully logged in!" None.
Definition signedUp : Toast := mkToast false "Successfully signed up!" None.
Definition signedInWithGoogle : Toast :=
  mkToast false "Successfully signed in with Google!" None.
Definition signupFailed (err : Err) : Toast :=
  mkToast true "Sign-up Failed"
    (Some (if String.eqb (err_code err) "auth/email-already-in-use"
           then "An account with this email already exists."
           else err_message err)).
Definition googleFailed (err : Err) : Toast :=
  mkToast true "Google Sign-in Failed" (Some (err_message err)).
Definition resetSent : Toast :=
  mkToast false "Password Reset Email Sent"
    (Some "Check your inbox for a link to reset your password.").
Definition resetFailed (err : Err) : Toast :=
  mkToast true "Error"
    (Some (if String.eqb (err_code err) "auth/user-not-found"
           then "No account found with this email."
           else err_message err)).
Definition notInitialized : Toast :=
  mkToast true "Error" (Some "Firebase not initialized.").
Definition loggedOut : Toast :=
  mkToast false "Logged Out" (Some "You've been successfully signed out.").

(** The values of the forgot-password form. *)
Definition forgotValues (email : string) : Obj := <["email" := VStr email]> ∅.

(** The conditions of the three schemas on the values of their forms. *)
Definition loginValid (rt : Runtime) (email password : string) : bool :=
  isEmail rt email && (1 <=? String.length password)%nat.

Definition signupValid (rt : Runtime) (i : SignupInput) : bool :=
  (2 <=? utf16Length (in_name i))%nat && isEmail rt (in_email i)
  && (10 <=? utf16Length (in_phone i))%nat
  && (6 <=? utf16Length (in_password i))%nat
  && in_agreeToTerms i && String.eqb (in_password i) (in_confirmPassword i).

(** The error, if any, that the conditional profile write runs into: the
    refusal of the read, or of the write when there is no profile yet. *)
Definition profileWriteError (firestore : option Handle) (b : Backend)
    (user : User) : option Err :=
  match firestore with
  | None => None
  | Some _ =>
      match rejects b (Get (userRef user)) with
      | Some e => Some e
      | None =>
          match docs b !! userRef user with
          | Some _ => None
          | None => rejects b (Set_ (userRef user))
          end
      end
  end.

End Outcomes.

Module BannerOutcomes.
Import Banners.

(** The notifications of a deletion. *)
Definition deleted : Toast := mkToast false "Banner deleted" None.
Definition deleteFailed (e : Err) : Toast :=
  mkToast true "Error deleting banner" (Some (err_message e)).

(** The conditions of [bannerSchema] on the values of the form. *)
Definition optionalString (v : val) : bool :=
  match v with VUndef | VStr _ => true | _ => false end.

Definition optionalBoolean (v : val) : bool :=
  match v with VUndef | VBool _ => true | _ => false end.

Definition titleOk (v : val) : bool :=
  match v with VStr t => (1 <=? String.length t)%nat | _ => false end.

Definition imageUrlOk (rt : Runtime) (v : val) : bool :=
  match v with VStr u => isUrl rt u | _ => false end.

Definition sortOrderOk (rt : Runtime) (v : val) : bool :=
  match v with VUndef => true | _ => isInteger (Zod.toNumber rt v) end.

Definition bannerValuesOk (rt : Runtime) (values : Obj) : bool :=
  titleOk (get values "title")
  && optionalString (get values "subtitle")
  && imageUrlOk rt (get values "imageUrl")
  && optionalString (get values "ctaLabel")
  && optionalString (get values "ctaLink")
  && optionalBoolean (get values "isActive")
  && sortOrderOk rt (get values "sortOrder").

(** The document a creation adds. *)
Definition createdRef (b : Backend) : string * string :=
  ("banners", "auto-" +:+ pretty (ids b)).

(** The blank defaults of the form of the Add dialog. *)
Definition blankValues : Obj :=
  <["title" := VStr EmptyString]>
  (<["subtitle" := VStr EmptyString]>
  (<["imageUrl" := VStr EmptyString]>
  (<["ctaLabel" := VStr EmptyString]>
  (<["ctaLink" := VStr EmptyString]>
  (<["isActive" := VBool true]>
  (<["sortOrder" := VNum (of_Z 0)]> ∅)))))).

End BannerOutcomes.

Module PromptText.
Import Suggest.

(** The line of a cart item, with its name and description as they are. *)
Definition itemText (i : CartItem) : string :=
  "      - " +:+ name i +:+ ": " +:+ description i +:+ nl.

(** The cart part of the prompt, with the items as they are. *)
Definition cartText (input : Input) : string :=
  match cartItems input with
  | Some (i :: items) => concat (itemText <$> (i :: items))
  | _ => noItemsLine
  end.

(** The characters that HTML escaping rewrites, and the strings without
    any of them. *)
Definition special (c : ascii) : bool :=
  Ascii.eqb c "&"%char || Ascii.eqb c "<"%char || Ascii.eqb c ">"%char
  || Ascii.eqb c (ascii_of_nat 34) || Ascii.eqb c "'"%char || Ascii.eqb c "`"%char
  || Ascii.eqb c "="%char.

Fixpoint plain (s : string) : bool :=
  match s with
  | EmptyString => true
  | String c rest => negb (special c) && plain rest
  end.

Definition plainInput (input : Input) : bool :=
  forallb (λ i, plain (name i) && plain (description i)) (default [] (cartItems input))
  && plain (default EmptyString (requirements input)).

End PromptText.

(** ** Concrete data for the examples *)

Module Samples.

(** Stand-ins for the library predicates: an address has an [@], a URL
    starts with [http], a string of decimal digits is its number (the
    empty string is 0) and any other string is not a number. *)
Fixpoint hasAt (s : string) : bool :=
  match s with
  | EmptyString => false
  | String c rest => Ascii.eqb c "@"%char || hasAt rest
  end.

Fixpoint digits (acc : Z) (s : string) : option Z :=
  match s with
  | EmptyString => Some acc
  | String c rest =>
      let n := nat_of_ascii c in
      if (48 <=? n)%nat && (n <=? 57)%nat
      then digits (10 * acc + Z.of_nat (n - 48)) rest
      else None
  end.

Definition runtime : Runtime :=
  mkRuntime hasAt (String.prefix "http")
    (λ s, match digits 0 s with Some z => of_Z z | None => NaN end).

Definition emptyBackend : Backend := mkBackend ∅ 1700000000 0 (λ _, None).

(** A store that refuses every write to a document. *)
Definition readOnlyBackend : Backend :=
  mkBackend ∅ 1700000000 0
    (λ o, match o with
          | Set_ _ | Update _ | Add _ =>
              Some (mkErr "permission-denied" "Missing or insufficient permissions.")
          | _ => None
          end).

Definition freshPage (b : Backend) : Account.Page :=
  Account.mkPage false false [] [] [] [] [] [] b.

(** A user of the federated provider, with a display name, and a user
    of a password account, without. *)
Definition alice : Account.User :=
  Account.mkUser "u1" (VStr "alice@example.com") (VStr "Alice") VNull.

Definition asha : Account.User :=
  Account.mkUser "u2" (VStr "asha@example.com") VNull VNull.

(** A provider that knows no credentials: sign-in is refused, account
    creation yields [asha], the popup yields [alice], reset e-mails are
    sent. *)
Definition provider : Account.Auth :=
  Account.mkAuth
    (λ _ _, Ok asha)
    (λ _ _, Throw (mkErr "auth/invalid-credential" "Firebase: Error (auth/invalid-credential)."))
    (Ok alice)
    (λ _, Ok tt).

(** The role a created profile gets, read back from the store. *)
Definition roleAfter firestore (ad : option Obj) (b : Backend) : option val :=
  docs (Account.store (exec (Account.handleUserDoc firestore alice ad) (freshPage b)))
    !! Account.userRef alice ≫= (.!! "role").

Definition freshForm (b : Backend) : Banners.Form :=
  Banners.mkForm false true [] [] 0 b.

(** The banner of the spec's scenario, as typed into the form; the number
    input holds a string. *)
Definition saleValues : Obj :=
  <["title" := VStr "Sale"]>
  (<["imageUrl" := VStr "https://x.com/a.png"]>
  (<["sortOrder" := VStr "1"]> ∅)).

(** A stored banner and the values of the form that edits it: the form
    is reset to the whole record, [id] and timestamps included. *)
Definition storedSale : Obj :=
  <["title" := VStr "Sale"]>
  (<["imageUrl" := VStr "https://x.com/a.png"]>
  (<["isActive" := VBool true]>
  (<["sortOrder" := VNum (of_Z 1)]>
  (<["createdAt" := VTime 1600000000]>
  (<["updatedAt" := VTime 1600000000]> ∅))))).

Definition sale : Banners.Banner :=
  Banners.mkBanner "b1" "Sale" None "https://x.com/a.png" None None true 1
    1600000000 1600000000.

Definition clearance : Banners.Banner :=
  Banners.mkBanner "b2" "Clearance" None "https://x.com/b.png" None None true 0
    1600000500 1600000500.

Definition newSale : Banners.Banner :=
  Banners.mkBanner "b3" "New sale" None "https://x.com/c.png" None None true 1
    1600000900 1600000900.

Definition editValues : Obj :=
  <["id" := VStr "b1"]> (<["title" := VStr "Big sale"]> storedSale).

Definition bannerBackend : Backend :=
  mkBackend {[("banners", "b1") := storedSale]} 1700000000 0 (λ _, None).

(** A model that is down for the first request and answers any later
    one. *)
Definition flakyModel : Suggest.Model :=
  λ n _, match n with
         | 0 => Throw (mkErr "UNAVAILABLE" "The model is overloaded.")
         | _ => Ok (Suggest.JObj [("suggestions", Suggest.JArr [Suggest.JStr "Laptop sleeve"])])
         end.

(** A model that answers every request with two suggestions. *)
Definition helpfulModel : Suggest.Model :=
  λ _ _, Ok (Suggest.JObj [("suggestions",
                            Suggest.JArr [Suggest.JStr "Laptop sleeve";
                                          Suggest.JStr "USB-C hub"])]).

(** A request with one item in the cart and a requirement. *)
Definition laptopRequest : Suggest.Input :=
  Suggest.mkInput (Some [Suggest.mkItem "Laptop" "15 inch"]) (Some "USB-C only").

(** A model whose output has a number among the suggestions. *)
Definition sloppyModel : Suggest.Model :=
  λ _ _, Ok (Suggest.JObj [("suggestions",
                            Suggest.JArr [Suggest.JStr "Laptop sleeve"; Suggest.JNum 7])]).

(** A signed-in view, and a provider whose sign-out fails. *)
Definition freshView : AccountView.View := AccountView.mkView [] [] 0.

Definition signOutFails : Account.Auth → outcome unit :=
  λ _, Throw (mkErr "auth/network-request-failed" "A network error has occurred.").

End Samples.

(** * Properties *)

(** A small test of the monad: the cleanup of [finally] runs after the
    handler of [catch]. *)
Example try_finally_runs_cleanup :
  exec (try_catch_finally (A:=unit)
          (modify (λ n : nat, n + 1) ;; throw (mkErr "c" "m"))
          (λ _, modify (λ n, n + 10))
          (modify (λ n, n + 100))) 0 = 111.
Proof. reflexivity. Qed.

(** Unfolding of the monad's operations, for the proofs below. *)
Ltac run :=
  unfold exec, result, zoom, try_catch_finally, try_catch, guard,
         mbind, M_bind, mret, M_ret, bind, ret, throw, modify, gets in *;
  cbn [fst snd] in *.

(** ** Strings *)

(** Only the empty string has length 0. *)
Lemma utf16Length_pos c s : (1 ≤ utf16Length (String c s))%nat.
Proof.
  unfold utf16Length. cbn [units].
  destruct (nat_of_ascii c <? 128)%nat; [lia|].
  destruct (nat_of_ascii c <? 192)%nat; [lia|].
  destruct (nat_of_ascii c <? 224)%nat; [lia|].
  destruct (nat_of_ascii c <? 240)%nat; lia.
Qed.

Lemma utf16Length_lt_1 s : (utf16Length s <? 1)%nat = (String.length s <? 1)%nat.
Proof.
  destruct s as [|c s]; [done|].
  pose proof (utf16Length_pos c s).
  destruct (Nat.ltb_spec (utf16Length (String c s)) 1); [lia|done].
Qed.

(** On ASCII text the length is the number of characters; a CJK character
    of three bytes is one unit, an emoji of four bytes is two. *)
Example utf16Length_samples :
  utf16Length "abcdefghij" = 10 ∧
  utf16Length (String (ascii_of_nat 230) (String (ascii_of_nat 157)
                 (String (ascii_of_nat 142) EmptyString))) = 1 ∧
  utf16Length (String (ascii_of_nat 240) (String (ascii_of_nat 159)
                 (String (ascii_of_nat 152) (String (ascii_of_nat 128) EmptyString)))) = 2.
Proof. by vm_compute. Qed.

(** ** The validation library *)

Module ZodFacts.
Import Zod.

Section Facts.
Context (rt : Runtime).

Lemma merge_aborted a b : merge a b = aborted ↔ a = aborted ∨ b = aborted.
Proof. destruct a, b; cbn; intuition congruence. Qed.

Lemma merge_valid a b : merge a b = valid ↔ a = valid ∧ b = valid.
Proof. destruct a, b; cbn; intuition congruence. Qed.

Lemma of_issues_valid v found :
  st (of_issues v found) = valid ↔ issues (of_issues v found) = [].
Proof. destruct found; cbn; intuition congruence. Qed.

Lemma of_issues_not_aborted v found : st (of_issues v found) ≠ aborted.
Proof. by destruct found. Qed.

(** A parse is valid exactly when it raised no issue. *)
Lemma parse_valid_iff s p v :
  st (parse rt s p v) = valid ↔ issues (parse rt s p v) = [].
Proof.
  revert v. induction s as [cs| |cs|s IH|s IH d|s IH pred m]; intros v; cbn.
  - destruct v; try apply of_issues_valid; cbn; intuition congruence.
  - destruct v; cbn; intuition congruence.
  - destruct (toNumber rt v); try apply of_issues_valid; cbn; intuition congruence.
  - destruct v; cbn; try apply IH; intuition congruence.
  - destruct v; cbn; apply IH.
  - destruct (st (parse rt s p v)) eqn:Hst; try apply IH in Hst as Hi.
    + destruct (pred _); cbn; [by rewrite Hst|].
      split; [done|]. intros H. by destruct (app_eq_nil _ _ H).
    + destruct (pred _); cbn.
      * rewrite Hst. split; [done|]. intros H. apply IH in H. congruence.
      * split; [done|]. intros H. by destruct (app_eq_nil _ _ H).
    + rewrite Hst. split; [done|]. intros H. apply IH in H. congruence.
Qed.

(** The three components of the parse of a non-empty shape. *)
Lemma st_parse_shape_cons k s sh data :
  st (parse_shape rt ((k, s) :: sh) data)
  = merge (st (parse rt s [k] (get data k))) (st (parse_shape rt sh data)).
Proof. reflexivity. Qed.

Lemma issues_parse_shape_cons k s sh data :
  issues (parse_shape rt ((k, s) :: sh) data)
  = issues (parse rt s [k] (get data k)) ++ issues (parse_shape rt sh data).
Proof. reflexivity. Qed.

Lemma value_parse_shape_cons k s sh data :
  value (parse_shape rt ((k, s) :: sh) data)
  = if match value (parse rt s [k] (get data k)) with
       | VUndef => bool_decide (is_Some (data !! k))
       | _ => true
       end
    then <[k := value (parse rt s [k] (get data k))]> (value (parse_shape rt sh data))
    else value (parse_shape rt sh data).
Proof. reflexivity. Qed.

Lemma parse_shape_valid_iff sh data :
  st (parse_shape rt sh data) = valid ↔ issues (parse_shape rt sh data) = [].
Proof.
  induction sh as [|[k s] sh IH]; [done|].
  rewrite st_parse_shape_cons, issues_parse_shape_cons, merge_valid.
  rewrite parse_valid_iff, IH. split.
  - by intros [-> ->].
  - intros H. by destruct (app_eq_nil _ _ H).
Qed.

(** An object aborts only if one of its fields does. *)
Lemma parse_shape_aborted sh data :
  st (parse_shape rt sh data) = aborted →
  Exists (λ f, st (parse rt f.2 [f.1] (get data f.1)) = aborted) sh.
Proof.
  induction sh as [|[k s] sh IH]; [done|].
  rewrite st_parse_shape_cons, merge_aborted. intros [H|H].
  - by left.
  - right. by apply IH.
Qed.

(** Only the keys of the shape survive: unknown keys are stripped. *)
Lemma parse_shape_strips sh data k :
  k ∉ sh.*1 → value (parse_shape rt sh data) !! k = None.
Proof.
  induction sh as [|[k' s] sh IH]; intros Hk; [done|].
  rewrite value_parse_shape_cons. cbn in Hk.
  apply not_elem_of_cons in Hk as [Hne Hk].
  destruct (match value _ with VUndef => _ | _ => true end).
  - rewrite lookup_insert_ne by done. by apply IH.
  - by apply IH.
Qed.

(** A key of the shape reads, in the parsed object, as the parsed
    value of its field. *)
Lemma parse_shape_get sh data k s :
  NoDup sh.*1 → (k, s) ∈ sh →
  get (value (parse_shape rt sh data)) k = value (parse rt s [k] (get data k)).
Proof.
  induction sh as [|[k' s'] sh IH]; intros Hnd Hin; [by apply elem_of_nil in Hin|].
  cbn in Hnd. apply NoDup_cons in Hnd as [Hk' Hnd].
  rewrite value_parse_shape_cons.
  apply elem_of_cons in Hin as [Heq|Hin].
  - injection Heq as -> ->.
    destruct (value (parse rt s' [k'] (get data k'))) eqn:Hv;
      try (unfold get; by rewrite lookup_insert_eq).
    destruct (bool_decide _); unfold get.
    + by rewrite lookup_insert_eq.
    + by rewrite parse_shape_strips.
  - assert (k ≠ k') as Hne.
    { intros ->. apply Hk'. apply list_elem_of_fmap. by exists (k', s). }
    destruct (match value _ with VUndef => _ | _ => true end).
    + unfold get. rewrite lookup_insert_ne by done. by apply IH.
    + by apply IH.
Qed.

Lemma oparse_valid_iff s data :
  st (oparse rt s data) = valid ↔ issues (oparse rt s data) = [].
Proof.
  induction s as [sh|s IH pred m at_path]; cbn.
  - apply parse_shape_valid_iff.
  - destruct (st (oparse rt s data)) eqn:Hst.
    + destruct (pred _); cbn; [by rewrite Hst|].
      split; [done|]. intros H. by destruct (app_eq_nil _ _ H).
    + destruct (pred _); cbn.
      * rewrite Hst. split; [done|]. intros H. apply IH in H. congruence.
      * split; [done|]. intros H. by destruct (app_eq_nil _ _ H).
    + rewrite Hst. split; [done|]. intros H. apply IH in H. congruence.
Qed.

Lemma Success_inj a b : Success a = Success b → a = b.
Proof. by intros [= ->]. Qed.

(** [safeParse] succeeds exactly when no issue was raised, and
    otherwise reports all of them. *)
Lemma safeParse_issues s data :
  safeParse rt s data
  = match issues (oparse rt s data) with
    | [] => Success (value (oparse rt s data))
    | errs => Failure errs
    end.
Proof.
  unfold safeParse. destruct (st (oparse rt s data)) eqn:Hst.
  - apply oparse_valid_iff in Hst as ->. done.
  - destruct (issues _) eqn:Hi; [|done].
    apply oparse_valid_iff in Hi. congruence.
  - destruct (issues _) eqn:Hi; [|done].
    apply oparse_valid_iff in Hi. congruence.
Qed.

End Facts.

End ZodFacts.

(** ** The account page *)

Module AccountSpec.
Import Account Samples.

Lemma handleUserDoc_existing firestore user ad s d :
  docs (store s) !! userRef user = Some d →
  exec (handleUserDoc firestore user ad) s = s.
Proof.
  intros Hd. unfold handleUserDoc, onStore, getDoc. destruct firestore as [h|]; [|done].
  run. destruct (rejects (store s) (Get ("users", uid user))) eqn:Hr; cbn.
  - destruct s; done.
  - unfold userRef in Hd. rewrite Hd. cbn. destruct s; done.
Qed.

Lemma handleUserDoc_absent h user ad s :
  docs (store s) !! userRef user = None →
  rejects (store s) (Get (userRef user)) = None →
  rejects (store s) (Set_ (userRef user)) = None →
  ∃ payload,
    payload !! "role" = (default ∅ ad ∪ {["role" := VStr "customer"]}) !! "role" ∧
    docs (store (exec (handleUserDoc (Some h) user ad) s))
      = <[userRef user := resolve (now (store s)) payload]> (docs (store s)).
Proof.
  intros Hd Hg Hs. unfold handleUserDoc, onStore, getDoc, setDoc, userRef in *.
  run. rewrite Hg. cbn. rewrite Hd. cbn. rewrite Hs. cbn.
  eexists. split; [|reflexivity].
  unfold spread. rewrite !lookup_union.
  rewrite !lookup_insert_ne by done. rewrite lookup_insert_eq.
  by rewrite lookup_singleton_eq.
Qed.

(** With a store that takes part, a profile is created with the default
    role whenever the additional data carries no role of its own. *)
Lemma handleUserDoc_creates_default_role firestore user ad s :
  docs (store s) !! userRef user = None →
  is_Some firestore →
  rejects (store s) (Get (userRef user)) = None →
  rejects (store s) (Set_ (userRef user)) = None →
  default ∅ ad !! "role" = None →
  let s' := exec (handleUserDoc firestore user ad) s in
  (∃ d, docs (store s') !! userRef user = Some d ∧
        d !! "role" = Some (VStr "customer")) ∧
  (∀ r, r ≠ userRef user → docs (store s') !! r = docs (store s) !! r).
Proof.
  intros Hd [h ->] Hg Hs Hrole s'.
  destruct (handleUserDoc_absent h user ad s Hd Hg Hs) as (payload & Hp & Hdocs).
  subst s'. rewrite Hdocs. split.
  - eexists. split; [apply lookup_insert_eq|].
    unfold resolve. rewrite lookup_fmap, Hp, lookup_union, Hrole.
    by rewrite lookup_singleton_eq.
  - intros r Hr. by rewrite lookup_insert_ne.
Qed.

(** Neither caller passes a role. *)
Lemma callers_pass_no_role caller :
  default ∅ (Outcomes.additionalDataOf caller) !! "role" = None.
Proof. by destruct caller. Qed.

(** C1. For every user, the conditional profile write is a no-op when a
    profile document for the uid exists: the whole state of the page and
    of the store, hence the role and every other field, is unchanged,
    whatever additional data is passed. When no document exists and the
    write takes place (the store handle is there, the store accepts the
    read and the write), then from either caller, the signup handler or
    the Google handler, a document is created for the uid with the role
    ["customer"], and no other document changes. *)
Theorem handleUserDoc_conditional_write firestore user s :
  (∀ ad, is_Some (docs (store s) !! userRef user) →
         exec (handleUserDoc firestore user ad) s = s) ∧
  (∀ caller,
     docs (store s) !! userRef user = None →
     is_Some firestore →
     rejects (store s) (Get (userRef user)) = None →
     rejects (store s) (Set_ (userRef user)) = None →
     let s' := exec (handleUserDoc firestore user (Outcomes.additionalDataOf caller)) s in
     (∃ d, docs (store s') !! userRef user = Some d ∧
           d !! "role" = Some (VStr "customer")) ∧
     (∀ r, r ≠ userRef user → docs (store s') !! r = docs (store s) !! r)).
Proof.
  split.
  - intros ad [d Hd]. by eapply handleUserDoc_existing.
  - intros caller Hd Hf Hg Hs.
    apply handleUserDoc_creates_default_role; try done.
    apply callers_pass_no_role.
Qed.

Lemma handleUserDoc_conditional_write_witness :
  roleAfter (Some App)
    (Outcomes.additionalDataOf
       (Outcomes.SignupCaller {["name" := VStr "Alice"; "phone" := VStr "0123456789"]}))
    emptyBackend = Some (VStr "customer").
Proof.
  destruct (handleUserDoc_conditional_write (Some App) alice (freshPage emptyBackend))
    as [_ H].
  destruct (H (Outcomes.SignupCaller
                 {["name" := VStr "Alice"; "phone" := VStr "0123456789"]}))
    as [(d & Hd & Hr) _]; [reflexivity | by eexists | reflexivity | reflexivity |].
  unfold roleAfter. rewrite Hd. exact Hr.
Defined.

(** Where the write does not take place nothing is created: without a
    store handle, or when the store refuses the write. *)
Example no_profile_without_a_write :
  roleAfter None None emptyBackend = None ∧
  roleAfter (Some App) None readOnlyBackend = None.
Proof. split; by vm_compute. Qed.

(** Both callers end with the default role: the signup handler passes
    the name and the phone only, the Google handler passes nothing. *)
Example callers_create_customers :
  let signedUp :=
    exec (submitSignup runtime (Some provider) (Some App)
            (formValues (mkSignup "Asha" "asha@example.com" "9876543210"
                           "secret1" "secret1" true)))
      (freshPage emptyBackend) in
  let viaGoogle :=
    exec (handleGoogleSignIn (Some provider) (Some App)) (freshPage emptyBackend) in
  (docs (store signedUp) !! userRef asha ≫= (.!! "role")) = Some (VStr "customer") ∧
  (docs (store signedUp) !! userRef asha ≫= (.!! "phone")) = Some (VStr "9876543210") ∧
  (docs (store viaGoogle) !! userRef alice ≫= (.!! "role")) = Some (VStr "customer") ∧
  pushed signedUp = ["/"] ∧ pushed viaGoogle = ["/"].
Proof. repeat split; by vm_compute. Qed.

(** *** Validation of the signup form *)

Section Signup.
Context (rt : Runtime).
Import Zod ZodFacts.

Lemma get_formValues i :
  get (formValues i) "name" = VStr (in_name i) ∧
  get (formValues i) "email" = VStr (in_email i) ∧
  get (formValues i) "phone" = VStr (in_phone i) ∧
  get (formValues i) "password" = VStr (in_password i) ∧
  get (formValues i) "confirmPassword" = VStr (in_confirmPassword i) ∧
  get (formValues i) "agreeToTerms" = VBool (in_agreeToTerms i).
Proof. repeat split; reflexivity. Qed.

Ltac fields i :=
  destruct (get_formValues i) as (Hn & He & Hp & Hpw & Hc & Ht);
  rewrite ?Hn, ?He, ?Hp, ?Hpw, ?Hc, ?Ht.

(** All the issues validation raises on the values of the form, in
    order. *)
Lemma signup_issues i :
  issues (oparse rt signupSchema (formValues i))
  = (if (utf16Length (in_name i) <? 2)%nat then [nameIssue] else [])
    ++ (if isEmail rt (in_email i) then [] else [emailIssue])
    ++ (if (utf16Length (in_phone i) <? 10)%nat then [phoneIssue] else [])
    ++ (if (utf16Length (in_password i) <? 6)%nat then [passwordIssue] else [])
    ++ (if in_agreeToTerms i then [] else [termsIssue])
    ++ (if String.eqb (in_password i) (in_confirmPassword i) then [] else [confirmIssue]).
Proof.
  unfold signupSchema. cbn [oparse].
  set (sh := signupShape).
  assert (NoDup sh.*1) as Hnd by (apply (bool_decide_unpack _); by vm_compute).
  assert (issues (parse_shape rt sh (formValues i))
          = (if (utf16Length (in_name i) <? 2)%nat then [nameIssue] else [])
            ++ (if isEmail rt (in_email i) then [] else [emailIssue])
            ++ (if (utf16Length (in_phone i) <? 10)%nat then [phoneIssue] else [])
            ++ (if (utf16Length (in_password i) <? 6)%nat then [passwordIssue] else [])
            ++ (if in_agreeToTerms i then [] else [termsIssue])) as Hi.
  { subst sh. unfold signupShape. rewrite !issues_parse_shape_cons. fields i.
    cbn [parse of_issues issues st value flat_map string_check app parse_shape].
    destruct (utf16Length (in_name i) <? 2)%nat, (isEmail rt (in_email i)),
      (utf16Length (in_phone i) <? 10)%nat, (utf16Length (in_password i) <? 6)%nat,
      (in_agreeToTerms i); reflexivity. }
  assert (st (parse_shape rt sh (formValues i)) ≠ aborted) as Hst.
  { intros H. apply parse_shape_aborted in H. subst sh. unfold signupShape in H.
    repeat (apply Exists_cons in H as [H|H];
            [cbn [fst snd] in H; revert H; fields i; cbn [parse];
             try apply of_issues_not_aborted;
             by destruct (in_agreeToTerms i)|]).
    by apply Exists_nil in H. }
  rewrite (parse_shape_get rt sh _ "password" (string_ [min 6 (message passwordIssue)]))
    by (done || subst sh; unfold signupShape; do 3 right; by left).
  rewrite (parse_shape_get rt sh _ "confirmPassword" (string_ []))
    by (done || subst sh; unfold signupShape; do 4 right; by left).
  fields i. cbn [parse of_issues value strictEq].
  destruct (st (parse_shape rt sh (formValues i))); [| |done];
    destruct (String.eqb _ _); cbn [issues]; rewrite Hi, <- ?app_assoc, ?app_nil_r;
    reflexivity.
Qed.

(** Validation succeeds exactly under the six conditions of the
    schema; the condition on the phone is its length. *)
Lemma signup_accepts_iff i :
  (∃ data, safeParse rt signupSchema (formValues i) = Success data)
  ↔ ((2 ≤ utf16Length (in_name i))%nat ∧ isEmail rt (in_email i) = true
     ∧ (10 ≤ utf16Length (in_phone i))%nat ∧ (6 ≤ utf16Length (in_password i))%nat
     ∧ in_agreeToTerms i = true ∧ in_password i = in_confirmPassword i).
Proof.
  rewrite safeParse_issues, signup_issues.
  set (L := _ ++ _).
  assert (L = [] ↔
          (2 ≤ utf16Length (in_name i))%nat ∧ isEmail rt (in_email i) = true
          ∧ (10 ≤ utf16Length (in_phone i))%nat
          ∧ (6 ≤ utf16Length (in_password i))%nat
          ∧ in_agreeToTerms i = true ∧ in_password i = in_confirmPassword i) as <-.
  { subst L. rewrite !app_nil.
    rewrite <- (Nat.ltb_ge (utf16Length (in_name i))),
            <- (Nat.ltb_ge (utf16Length (in_phone i))),
            <- (Nat.ltb_ge (utf16Length (in_password i))).
    rewrite <- String.eqb_eq.
    destruct (utf16Length (in_name i) <? 2)%nat, (isEmail rt (in_email i)),
      (utf16Length (in_phone i) <? 10)%nat, (utf16Length (in_password i) <? 6)%nat,
      (in_agreeToTerms i), (String.eqb (in_password i) (in_confirmPassword i));
      intuition congruence. }
  destruct L; split; intros H; eauto; try done. by destruct H.
Qed.

(** A phone of fewer than ten characters is refused on the phone field. *)
Lemma signup_short_phone_rejected i :
  (utf16Length (in_phone i) < 10)%nat →
  phoneIssue ∈ issues (oparse rt signupSchema (formValues i)).
Proof.
  intros Hlt%Nat.ltb_lt. rewrite signup_issues, Hlt.
  rewrite !elem_of_app. right. right. left. by left.
Qed.

(** What submitting the form does when validation fails: the issues
    become the errors of the form and nothing else happens. *)
Lemma submitSignup_invalid auth firestore i s x :
  x ∈ issues (oparse rt signupSchema (formValues i)) →
  safeParse rt signupSchema (formValues i)
    = Failure (issues (oparse rt signupSchema (formValues i))) ∧
  exec (submitSignup rt auth firestore (formValues i)) s
    = put_signupErrors (issues (oparse rt signupSchema (formValues i))) s.
Proof.
  intros Hx.
  assert (safeParse rt signupSchema (formValues i)
          = Failure (issues (oparse rt signupSchema (formValues i)))) as Hf.
  { rewrite safeParse_issues. destruct (issues _); [by apply elem_of_nil in Hx|done]. }
  split; [done|].
  unfold submitSignup, handleSubmit. rewrite Hf. reflexivity.
Qed.

(** C2. Whenever the password and its confirmation differ, validation
    fails with the issue ["Passwords don't match."] on the
    [confirmPassword] field; whenever the terms are not accepted, it
    fails with the issue of the [agreeToTerms] field. In both cases
    submitting only records the errors of the form: no request reaches
    the identity provider, and no account is created. *)
Theorem signup_mismatch_or_terms_blocks_creation auth firestore i s :
  let errs := issues (oparse rt signupSchema (formValues i)) in
  let s' := exec (submitSignup rt auth firestore (formValues i)) s in
  (in_password i ≠ in_confirmPassword i →
     safeParse rt signupSchema (formValues i) = Failure errs ∧
     confirmIssue ∈ errs ∧
     s' = put_signupErrors errs s ∧ calls s' = calls s) ∧
  (in_agreeToTerms i = false →
     safeParse rt signupSchema (formValues i) = Failure errs ∧
     termsIssue ∈ errs ∧
     s' = put_signupErrors errs s ∧ calls s' = calls s).
Proof.
  intros errs s'. split.
  - intros Hne.
    assert (confirmIssue ∈ errs) as Hin.
    { subst errs. rewrite signup_issues.
      apply String.eqb_neq in Hne. rewrite Hne. set_solver. }
    destruct (submitSignup_invalid auth firestore i s _ Hin) as [Hf He].
    subst s'. by rewrite He.
  - intros Ht.
    assert (termsIssue ∈ errs) as Hin.
    { subst errs. rewrite signup_issues, Ht. set_solver. }
    destruct (submitSignup_invalid auth firestore i s _ Hin) as [Hf He].
    subst s'. by rewrite He.
Qed.

Lemma value_signup_parsed vals :
  value (oparse rt signupSchema vals) = value (parse_shape rt signupShape vals).
Proof.
  unfold signupSchema. cbn [oparse].
  destruct (st _); [| |done]; by destruct (strictEq _ _).
Qed.

(** The credentials handed to [onSignupSubmit] are those typed in. *)
Lemma signup_parsed_credentials i data :
  safeParse rt signupSchema (formValues i) = Success data →
  get data "email" = VStr (in_email i) ∧ get data "password" = VStr (in_password i).
Proof.
  rewrite safeParse_issues. destruct (issues _); [|done]. intros <-%Success_inj.
  rewrite value_signup_parsed.
  split.
  - erewrite parse_shape_get;
      [|apply (bool_decide_unpack _); by vm_compute
       |unfold signupShape; do 1 right; by left].
    by fields i.
  - erewrite parse_shape_get;
      [|apply (bool_decide_unpack _); by vm_compute
       |unfold signupShape; do 3 right; by left].
    by fields i.
Qed.

Lemma handleUserDoc_calls firestore user ad s :
  calls (exec (handleUserDoc firestore user ad) s) = calls s.
Proof.
  unfold handleUserDoc, onStore, getDoc, setDoc. destruct firestore; [|done].
  run. repeat (case_match; simplify_eq; cbn [fst snd] in *); done.
Qed.

(** [onSignupSubmit] sends exactly one request: the creation of the
    account. *)
Lemma onSignupSubmit_calls a firestore data s :
  calls (exec (onSignupSubmit (Some a) firestore data) s)
  = calls s ++ [CreateUser (get data "email") (get data "password")].
Proof.
  unfold onSignupSubmit, request, setLoading, toast, router_push.
  pose proof (handleUserDoc_calls firestore) as Hh.
  run.
  destruct (createUserWithEmailAndPassword a _ _) as [user|e]; cbn; [|done].
  match goal with
  | |- context [handleUserDoc firestore user ?ad ?s0] =>
      specialize (Hh user ad s0); destruct (handleUserDoc firestore user ad s0) as [[[]|e] s1]
  end; cbn in *; by rewrite Hh.
Qed.

(** C5, at a failing input. A phone of ten letters and no digit passes
    validation, and the account is created. *)
Theorem signup_accepts_phone_without_digits a firestore s :
  isEmail rt "user@example.com" = true →
  let i := mkSignup "Asha" "user@example.com" "abcdefghij" "secret1" "secret1" true in
  (∃ data, safeParse rt signupSchema (formValues i) = Success data) ∧
  calls (exec (submitSignup rt (Some a) firestore (formValues i)) s)
  = calls s ++ [CreateUser (VStr "user@example.com") (VStr "secret1")].
Proof.
  intros He i.
  assert (∃ data, safeParse rt signupSchema (formValues i) = Success data) as [data Hd].
  { apply signup_accepts_iff. subst i.
    cbn [in_name in_email in_phone in_password in_confirmPassword in_agreeToTerms].
    split; [vm_compute; lia|]. split; [exact He|]. split; [vm_compute; lia|].
    split; [vm_compute; lia|]. by split. }
  split; [by exists data|].
  unfold submitSignup, handleSubmit. rewrite Hd.
  destruct (signup_parsed_credentials i data Hd) as [Hem Hpw].
  change (exec (modify (put_signupErrors []) ;; onSignupSubmit (Some a) firestore data) s)
    with (exec (onSignupSubmit (Some a) firestore data) (put_signupErrors [] s)).
  by rewrite onSignupSubmit_calls, Hem, Hpw.
Qed.

End Signup.

Lemma signup_mismatch_or_terms_blocks_creation_witness :
  calls (exec (submitSignup runtime (Some provider) (Some App)
                 (formValues (mkSignup "Asha" "asha@example.com" "9876543210"
                                "secret1" "secret2" false)))
           (freshPage emptyBackend)) = [].
Proof.
  destruct (signup_mismatch_or_terms_blocks_creation runtime (Some provider) (Some App)
              (mkSignup "Asha" "asha@example.com" "9876543210" "secret1" "secret2" false)
              (freshPage emptyBackend)) as [Hmismatch Hterms].
  destruct Hmismatch as (_ & _ & _ & Hcalls); [discriminate|].
  destruct Hterms as (_ & _ & _ & _); [reflexivity|].
  exact Hcalls.
Defined.

Lemma signup_accepts_phone_without_digits_witness :
  calls (exec (submitSignup runtime (Some provider) (Some App)
                 (formValues (mkSignup "Asha" "user@example.com" "abcdefghij"
                                "secret1" "secret1" true)))
           (freshPage emptyBackend))
  = [CreateUser (VStr "user@example.com") (VStr "secret1")].
Proof.
  destruct (signup_accepts_phone_without_digits runtime provider (Some App)
              (freshPage emptyBackend)) as [_ H]; [reflexivity|].
  exact H.
Defined.

(** *** Login *)

(** C4. Whatever error the sign-in request is refused with, the page
    shows exactly one more notification, titled ["Login Failed"] with the
    description ["Invalid email or password."], nothing is pushed to the
    router, and the form is no longer loading. *)
Theorem login_failure_is_generic a data s err :
  signInWithEmailAndPassword a (get data "email") (get data "password") = Throw err →
  let s' := exec (onLoginSubmit (Some a) data) s in
  toasts s' = toasts s ++ [loginFailed] ∧
  pushed s' = pushed s ∧
  loading s' = false.
Proof.
  intros Herr s'. subst s'.
  unfold onLoginSubmit, request, setLoading, toast, router_push. run.
  rewrite Herr. cbn. done.
Qed.

(** The scenario of the spec: a well-formed address and a password that
    does not match. *)
Lemma login_failure_is_generic_witness :
  let s' := exec (onLoginSubmit (Some provider)
                    (loginValues "user@example.com" "wrongpass" false))
              (freshPage emptyBackend) in
  toasts s' = [loginFailed] ∧ pushed s' = [] ∧ loading s' = false.
Proof.
  apply (login_failure_is_generic provider
           (loginValues "user@example.com" "wrongpass" false)
           (freshPage emptyBackend)
           (mkErr "auth/invalid-credential" "Firebase: Error (auth/invalid-credential).")).
  reflexivity.
Defined.

End AccountSpec.

(** ** The banner administration page *)

Module BannersSpec.
Import Banners Samples.

(** *** The form *)

(** A write that fails leaves the store as it was. *)
Lemma write_failure_keeps_store banner data b e :
  result (write banner data) b = Throw e → exec (write banner data) b = b.
Proof.
  unfold write, updateDoc, addDoc. destruct banner as [bn|]; run.
  - destruct (rejects b _); cbn; [done|].
    destruct (docs b !! _); cbn; [done|done].
  - destruct (rejects b _); cbn; [done|done].
Qed.

(** C9. With the store handle at hand, [onFinished] (here the closing of
    the dialog, as both hosts pass it) is invoked once if the document
    write succeeds and not at all if it fails. On a failure the dialog's
    [open] flag and the store are unchanged and one notification
    ["Error saving banner"] carries the message of the error. Either way
    the form stops loading; without a handle nothing happens at all. *)
Theorem onSubmit_finishes_iff_written h banner data s :
  let s' := exec (onSubmit (Some h) banner (setOpen false) data) s in
  match result (write banner data) (store s) with
  | Ok _ =>
      finished s' = S (finished s) ∧ open s' = false ∧
      toasts s' = toasts s ++ [savedToast banner] ∧
      store s' = exec (write banner data) (store s)
  | Throw e =>
      finished s' = finished s ∧ open s' = open s ∧
      toasts s' = toasts s ++ [errorToast e] ∧
      store s' = store s
  end
  ∧ loading s' = false
  ∧ exec (onSubmit None banner (setOpen false) data) s = s.
Proof.
  intros s'. subst s'.
  unfold onSubmit, write, onStore, call_onFinished, setLoading, setOpen, toast,
    updateDoc, addDoc.
  destruct banner as [bn|]; run; cbn.
  - destruct (rejects (store s) _); cbn; [done|].
    destruct (docs (store s) !! _); cbn; done.
  - destruct (rejects (store s) _); cbn; done.
Qed.

(** *** The schema *)



Section Schema.
Context (rt : Runtime).
Import Zod ZodFacts.

Lemma bannerShape_NoDup : NoDup bannerShape.*1.
Proof. apply (bool_decide_unpack _). by vm_compute. Qed.





(** *** Editing *)

(** What submitting the form does once validation has succeeded. *)
Lemma submit_valid firestore banner values data s :
  safeParse rt bannerSchema values = Success data →
  exec (submit rt firestore banner values) s
  = exec (onSubmit firestore banner (setOpen false) data) (put_errors [] s).
Proof. intros H. unfold submit, handleSubmit. by rewrite H. Qed.

(** The parsed data has no key outside the schema. *)
Lemma parsed_keys values data k :
  safeParse rt bannerSchema values = Success data →
  k ∉ bannerShape.*1 → data !! k = None.
Proof.
  rewrite safeParse_issues. destruct (issues _); [|done]. intros <-%Success_inj.
  apply parse_shape_strips.
Qed.

(** C10. An edit hands to [updateDoc] the validated fields of the form
    and [updatedAt], set to the server-timestamp sentinel, and nothing
    else: neither [createdAt] nor [id] is among the keys, although the
    form was reset to the whole record. In the store no other document
    changes, no document is created, and the edited document, updated or
    not, keeps its [createdAt] and [id]; when the store accepts the update
    the document is the old one overwritten by exactly that payload, with
    [updatedAt] at the server's time. *)
Theorem edit_writes_only_form_fields_and_updatedAt h b values data s :
  safeParse rt bannerSchema values = Success data →
  let payload := updatePayload data in
  let s' := exec (submit rt (Some h) (Some b) values) s in
  (dom payload = dom data ∪ {["updatedAt"]} ∧
   payload !! "updatedAt" = Some VServerTimestamp ∧
   (∀ k, k ≠ "updatedAt" → payload !! k = data !! k) ∧
   payload !! "createdAt" = None ∧ payload !! "id" = None) ∧
  (∀ r, r ≠ bannerRef b → docs (store s') !! r = docs (store s) !! r) ∧
  (docs (store s) !! bannerRef b = None → docs (store s') !! bannerRef b = None) ∧
  (∀ old, docs (store s) !! bannerRef b = Some old →
     ∃ new, docs (store s') !! bannerRef b = Some new ∧
            new !! "createdAt" = old !! "createdAt" ∧ new !! "id" = old !! "id" ∧
            (rejects (store s) (Update (bannerRef b)) = None →
               new = resolve (now (store s)) payload ∪ old ∧
               new !! "updatedAt" = Some (VTime (now (store s))))).
Proof.
  intros Hok payload s'.
  assert (payload !! "createdAt" = None ∧ payload !! "id" = None) as [Hc Hi].
  { subst payload. unfold updatePayload. rewrite !lookup_insert_ne by done.
    split; eapply parsed_keys; try done;
      apply (bool_decide_unpack _); by vm_compute. }
  split; [|].
  { subst payload. unfold updatePayload in *. repeat split; try done.
    - rewrite dom_insert_L. apply (comm_L (∪)).
    - apply lookup_insert_eq.
    - intros k Hk. by rewrite lookup_insert_ne. }
  subst s'. rewrite (submit_valid _ _ _ _ _ Hok).
  unfold onSubmit, onStore, call_onFinished, setLoading, setOpen, toast, updateDoc,
    bannerRef in *.
  run. cbn.
  destruct (rejects (store s) (Update ("banners", id b))) as [e|] eqn:Hrej; cbn.
  { repeat split; try done. intros old Hold. exists old. by rewrite Hold. }
  destruct (docs (store s) !! ("banners", id b)) as [old|] eqn:Hold; cbn.
  - repeat split; try done.
    + intros r Hr. by rewrite lookup_insert_ne.
    + intros old' [= <-]. eexists. split; [apply lookup_insert_eq|].
      fold payload. unfold resolve. split; [|split; [|intros _; split; [done|]]].
      * rewrite lookup_union, lookup_fmap, Hc. by destruct (old !! "createdAt").
      * rewrite lookup_union, lookup_fmap, Hi. by destruct (old !! "id").
      * subst payload. unfold updatePayload.
        rewrite lookup_union, lookup_fmap, lookup_insert_eq.
        by destruct (old !! "updatedAt").
  - repeat split; done.
Qed.

End Schema.


(** Editing the stored banner: the title changes, [updatedAt] is the
    server's time, [createdAt] stays. *)
Lemma edit_writes_only_form_fields_and_updatedAt_witness :
  ∃ new,
    docs (store (exec (submit runtime (Some App) (Some sale) editValues)
                   (freshForm bannerBackend))) !! bannerRef sale = Some new ∧
    new !! "createdAt" = storedSale !! "createdAt" ∧
    new !! "id" = storedSale !! "id".
Proof.
  destruct (edit_writes_only_form_fields_and_updatedAt runtime App sale editValues
              (Zod.value (Zod.oparse runtime bannerSchema editValues))
              (freshForm bannerBackend)) as (_ & _ & _ & H); [by vm_compute|].
  destruct (H storedSale) as (new & Hnew & Hc & Hi & _); [reflexivity|].
  exists new. by repeat split.
Defined.

Example edit_result :
  docs (store (exec (submit runtime (Some App) (Some sale) editValues)
                 (freshForm bannerBackend))) !! bannerRef sale
  ≫= (λ d, Some (get d "title", get d "createdAt", get d "updatedAt", get d "id"))
  = Some (VStr "Big sale", VTime 1600000000, VTime 1700000000, VUndef).
Proof. by vm_compute. Qed.

(** *** The list *)

(** The two [orderBy] clauses of the query say exactly that. *)
Lemma before_listed a b : before bannerOrderings a b ↔ listed_before a b.
Proof.
  unfold before, listed_before, bannerOrderings, orderBy. cbn.
  destruct (Z.compare_spec (sortOrder a) (sortOrder b)) as [He|Hl|Hg].
  - destruct (Z.compare_spec (createdAt b) (createdAt a)) as [Hc|Hc|Hc];
      split; intros Hb; try done; try (right; lia).
    destruct Hb as [?|[_ ?]]; lia.
  - split; [intros _; by left|done].
  - split; [done|]. intros [?|[? _]]; lia.
Qed.

#[local] Instance before_total : Total (before bannerOrderings).
Proof.
  intros a b. rewrite !before_listed. unfold listed_before.
  destruct (Z.lt_trichotomy (sortOrder a) (sortOrder b)) as [?|[?|?]];
    destruct (Z.le_ge_cases (createdAt a) (createdAt b)); intuition lia.
Qed.

#[local] Instance before_transitive : Transitive (before bannerOrderings).
Proof.
  intros a b c. rewrite !before_listed. unfold listed_before. intuition lia.
Qed.

Lemma StronglySorted_weaken {A} (R R' : relation A) l :
  (∀ a b, R a b → R' a b) → StronglySorted R l → StronglySorted R' l.
Proof.
  intros HR. induction 1 as [|a l Hl IH Ha]; constructor; [done|].
  eapply Forall_impl; [exact Ha|]. intros b. apply HR.
Qed.

Lemma rendered_rows firestore sub :
  rendered (BannersPage firestore sub)
  = default [] (data (useCollection (bannersQuery firestore) sub)).
Proof.
  unfold BannersPage, rendered.
  set (r := useCollection _ _).
  rewrite !omap_app.
  assert (omap (λ r, match r with BannerRow b => Some b | _ => None end)
            (BannerRow <$> default [] (data r)) = default [] (data r)) as ->.
  { induction (default [] (data r)) as [|b l IH]; [done|]. cbn. by rewrite IH. }
  destruct (isLoading r); cbn;
    [|destruct (match data r with Some _ => _ | None => _ end); cbn];
    by rewrite app_nil_r.
Qed.

(** C3. Whatever the collection holds, the banners are rendered in
    ascending [sortOrder], and among equal [sortOrder]s in descending
    [createdAt]: each rendered banner is listed before all those below
    it. Once a snapshot has arrived, the rendered banners are those of
    the collection, each as often as it occurs. *)
Theorem banners_rendered_in_order firestore sub :
  StronglySorted listed_before (rendered (BannersPage firestore sub)) ∧
  ∀ h documents,
    rendered (BannersPage (Some h) (Snapshot documents)) ≡ₚ documents.
Proof.
  split.
  - rewrite rendered_rows.
    destruct firestore as [h|], sub as [|documents]; cbn; try constructor.
    eapply StronglySorted_weaken;
      [|apply (StronglySorted_merge_sort (before bannerOrderings))].
    intros a b. apply before_listed.
  - intros h documents. rewrite rendered_rows. cbn. apply merge_sort_Permutation.
Qed.

Example banners_rendered_sample :
  BannersPage (Some App) (Snapshot [sale; clearance; newSale])
  = [BannerRow clearance; BannerRow newSale; BannerRow sale]
  ∧ BannersPage (Some App) Pending = [SkeletonRow 0; SkeletonRow 1; SkeletonRow 2]
  ∧ BannersPage (Some App) (Snapshot []) = [EmptyRow].
Proof. repeat split; by vm_compute. Qed.

End BannersSpec.

(** ** The suggestion flow *)

Module SuggestSpec.
Import Suggest.

(** *** The prompt *)

Lemma context_cartItems input :
  lookup_path (context input) ["cartItems"]
  = match cartItems input with
    | Some items =>
        HList ((λ i, HObj [("name", HStr (name i));
                           ("description", HStr (description i))]) <$> items)
    | None => HUndef
    end.
Proof. destruct input as [[items|] [r|]]; reflexivity. Qed.

Lemma context_requirements input :
  lookup_path (context input) ["requirements"]
  = match requirements input with Some r => HStr r | None => HUndef end.
Proof. destruct input as [[items|] [r|]]; reflexivity. Qed.

Lemma append_empty_r s : s +:+ EmptyString = s.
Proof.
  induction s as [|c s IH]; [done|].
  change (String c (s +:+ EmptyString) = String c s). by f_equal.
Qed.

(** The cart section for any input: the lines of the items when there is
    at least one, the fixed line otherwise. *)
Lemma cartSection_rendered noEscape input :
  render noEscape (context input) cartSection
  = match cartItems input with
    | Some (i :: items) => concat (itemLine noEscape <$> (i :: items))
    | _ => noItemsLine
    end.
Proof.
  unfold cartSection. cbn [render]. rewrite context_cartItems.
  destruct (cartItems input) as [[|i items]|]; [reflexivity| |reflexivity].
  cbn [fmap list_fmap isEmpty]. rewrite append_empty_r.
  apply (f_equal concat). apply (f_equal2 cons); [reflexivity|].
  rewrite <- list_fmap_compose. apply list_fmap_ext. intros _ j _. reflexivity.
Qed.

(** C8. For an empty cart and empty requirements the cart section of the
    rendered prompt is the line ["No items in cart."], the requirements
    placeholder leaves the empty string, and the whole prompt is the fixed
    text around them. For any request, the item lines appear exactly when
    the cart has at least one item; otherwise the section is that line. *)
Theorem empty_request_prompt noEscape :
  render noEscape (context emptyRequest) cartSection = noItemsLine ∧
  render noEscape (context emptyRequest) (Mustache ["requirements"]) = EmptyString ∧
  renderPrompt noEscape emptyRequest
  = preamble +:+ noItemsLine +:+ nl +:+ "  Requirements: " +:+ nl +:+ nl +:+ "  Suggestions:" ∧
  ∀ input,
    render noEscape (context input) cartSection
    = match cartItems input with
      | Some (i :: items) => concat (itemLine noEscape <$> (i :: items))
      | Some [] | None => noItemsLine
      end.
Proof.
  repeat split.
  - by destruct noEscape.
  - by destruct noEscape; vm_compute.
  - intros input. apply cartSection_rendered.
Qed.

(** *** The flow *)

(** C7. A run sends exactly one request to the model, with the rendered
    prompt. If the model fails, the flow fails with that very error; if
    the model's output does not conform to the output schema, the flow
    fails; and the flow returns a result only if it is the model's own
    output of that single request, parsed. No second request is made and
    no other result is substituted. *)
Theorem flow_fails_outright noEscape (model : Model) input (sent : Sent) :
  let text := renderPrompt noEscape input in
  let run := suggestCompatibleProducts noEscape model input sent in
  run.2 = sent ++ [text] ∧
  (∀ e, model (length sent) text = Throw e → run.1 = Throw e) ∧
  (∀ j, model (length sent) text = Ok j → parseOutput j = None →
        ∃ e, run.1 = Throw e) ∧
  (∀ o, run.1 = Ok o →
        ∃ j, model (length sent) text = Ok j ∧ parseOutput j = Some o).
Proof.
  intros text run. subst run.
  unfold suggestCompatibleProducts, suggestCompatibleProductsFlow, defineFlow, prompt.
  run. fold text.
  destruct (model (length sent) text) as [j|e]; cbn.
  - destruct (parseOutput j) as [o|] eqn:Hp; cbn.
    + split; [done|split; [done|split]].
      * intros j' [= <-] Hn. congruence.
      * intros o' [= <-]. by exists j.
    + split; [done|split; [done|split]].
      * intros j' _ _. by eexists.
      * done.
  - split; [done|split; [|split]]; try done. by intros e' [= <-].
Qed.

Lemma flow_fails_outright_witness :
  (suggestCompatibleProducts true Samples.flakyModel emptyRequest []).1
  = Throw (mkErr "UNAVAILABLE" "The model is overloaded.").
Proof.
  destruct (flow_fails_outright true Samples.flakyModel emptyRequest []) as (_ & H & _).
  apply H. reflexivity.
Defined.

(** With a model that fails once and would answer a second request, the
    flow fails: it does not ask again. *)
Example flow_does_not_retry :
  suggestCompatibleProducts true Samples.flakyModel emptyRequest []
  = (Throw (mkErr "UNAVAILABLE" "The model is overloaded."),
     [renderPrompt true emptyRequest]).
Proof. reflexivity. Qed.

(** One entry of the wrong type fails the whole result: the conforming
    entries are not returned. *)
Example flow_returns_no_partial_result :
  (suggestCompatibleProducts true Samples.sloppyModel emptyRequest []).1
  = Throw (mkErr "INVALID_ARGUMENT" "Schema validation failed.").
Proof. reflexivity. Qed.

End SuggestSpec.

(** * Further properties *)

(** ** The account page *)

Module AccountMore.
Import Account Outcomes Samples.

Lemma put_store_same s : put_store (store s) s = s.
Proof. by destruct s. Qed.

(** [handleUserDoc], case by case. *)
Lemma handleUserDoc_cases firestore user ad s :
  handleUserDoc firestore user ad s
  = match firestore with
    | None => (Ok tt, s)
    | Some _ =>
        match rejects (store s) (Get (userRef user)) with
        | Some e => (Throw e, s)
        | None =>
            match docs (store s) !! userRef user with
            | Some _ => (Ok tt, s)
            | None =>
                match rejects (store s) (Set_ (userRef user)) with
                | Some e => (Throw e, s)
                | None =>
                    (Ok tt,
                     put_store
                       (with_docs (insert (userRef user)
                                     (resolve (now (store s)) (newProfile user ad)))
                          (store s)) s)
                end
            end
        end
    end.
Proof.
  unfold handleUserDoc, onStore, getDoc, setDoc, userRef. destruct firestore; [|done].
  run. destruct (rejects (store s) (Get _)); cbn; rewrite put_store_same; [done|].
  destruct (docs (store s) !! _); cbn; [done|].
  destruct (rejects (store s) (Set_ _)); cbn; [by rewrite put_store_same|done].
Qed.

(** The conditional write changes nothing but the store, and fails exactly
    with [profileWriteError]. *)
Lemma handleUserDoc_summary firestore user ad s :
  ∃ b, (handleUserDoc firestore user ad s).2 = put_store b s ∧
       (∀ r d, docs (store s) !! r = Some d → docs b !! r = Some d) ∧
       match profileWriteError firestore (store s) user with
       | Some e => (handleUserDoc firestore user ad s).1 = Throw e ∧ b = store s
       | None => (handleUserDoc firestore user ad s).1 = Ok tt
       end.
Proof.
  rewrite handleUserDoc_cases. unfold profileWriteError.
  destruct firestore; [|exists (store s); by rewrite put_store_same].
  destruct (rejects (store s) (Get _)); [exists (store s); by rewrite put_store_same|].
  destruct (docs (store s) !! userRef user) eqn:Hd;
    [exists (store s); by rewrite put_store_same|].
  destruct (rejects (store s) (Set_ _)); [exists (store s); by rewrite put_store_same|].
  eexists. split; [done|]. split; [|done].
  intros r d Hr. cbn. rewrite lookup_insert_ne; [done|]. intros <-. congruence.
Qed.

(** X1. None of the four handlers of the form lets an error escape, and
    each leaves the form not loading: whatever the provider and the store
    answer, with or without their handles. *)
Theorem handlers_catch_everything auth firestore data s :
  (result (onLoginSubmit auth data) s = Ok tt ∧
   loading (exec (onLoginSubmit auth data) s) = false) ∧
  (result (onSignupSubmit auth firestore data) s = Ok tt ∧
   loading (exec (onSignupSubmit auth firestore data) s) = false) ∧
  (result (handleGoogleSignIn auth firestore) s = Ok tt ∧
   loading (exec (handleGoogleSignIn auth firestore) s) = false) ∧
  (result (handleForgotPassword auth data) s = Ok tt ∧
   loading (exec (handleForgotPassword auth data) s) = false).
Proof.
  repeat split;
    unfold onLoginSubmit, onSignupSubmit, handleGoogleSignIn, handleForgotPassword,
      request, setLoading, setShowForgotPassword, toast, router_push;
    destruct auth as [a|]; run; try done.
  - by destruct (signInWithEmailAndPassword a _ _).
  - by destruct (signInWithEmailAndPassword a _ _).
  - destruct (createUserWithEmailAndPassword a _ _) as [user|e]; cbn; [|done].
    by destruct (handleUserDoc _ _ _ _) as [[[]|e] s1].
  - destruct (createUserWithEmailAndPassword a _ _) as [user|e]; cbn; [|done].
    by destruct (handleUserDoc _ _ _ _) as [[[]|e] s1].
  - destruct (signInWithPopup a) as [user|e]; cbn; [|done].
    by destruct (handleUserDoc _ _ _ _) as [[[]|e] s1].
  - destruct (signInWithPopup a) as [user|e]; cbn; [|done].
    by destruct (handleUserDoc _ _ _ _) as [[[]|e] s1].
  - by destruct (sendPasswordResetEmail a _).
  - by destruct (sendPasswordResetEmail a _).
Qed.

(** X2. The handlers of the form only ever add to the store: every
    document that was there is still there, unchanged, afterwards. *)
Theorem handlers_keep_existing_documents auth firestore data s :
  docs (store s) ⊆ docs (store (exec (onLoginSubmit auth data) s)) ∧
  docs (store s) ⊆ docs (store (exec (onSignupSubmit auth firestore data) s)) ∧
  docs (store s) ⊆ docs (store (exec (handleGoogleSignIn auth firestore) s)) ∧
  docs (store s) ⊆ docs (store (exec (handleForgotPassword auth data) s)).
Proof.
  repeat split; apply map_subseteq_spec; intros r d Hr;
    unfold onLoginSubmit, onSignupSubmit, handleGoogleSignIn, handleForgotPassword,
      request, setLoading, setShowForgotPassword, toast, router_push;
    destruct auth as [a|]; run; try done.
  - by destruct (signInWithEmailAndPassword a _ _).
  - destruct (createUserWithEmailAndPassword a _ _) as [user|e]; cbn; [|done].
    match goal with
    | |- context [handleUserDoc firestore user ?ad ?s0] =>
        destruct (handleUserDoc_summary firestore user ad s0) as (b & Hb & Hkeep & _);
        destruct (handleUserDoc firestore user ad s0) as [[[]|e] s1]
    end; cbn in *; subst s1; cbn; by apply Hkeep.
  - destruct (signInWithPopup a) as [user|e]; cbn; [|done].
    match goal with
    | |- context [handleUserDoc firestore user ?ad ?s0] =>
        destruct (handleUserDoc_summary firestore user ad s0) as (b & Hb & Hkeep & _);
        destruct (handleUserDoc firestore user ad s0) as [[[]|e] s1]
    end; cbn in *; subst s1; cbn; by apply Hkeep.
  - by destruct (sendPasswordResetEmail a _).
Qed.

(** X3. [onLoginSubmit] never touches the store. Without the provider's
    handle it sends nothing, shows nothing and stays; with it, it sends
    one sign-in request with the submitted credentials, and on success
    notifies ["Successfully logged in!"] and navigates home. *)
Theorem onLoginSubmit_outcomes auth data s :
  let s' := exec (onLoginSubmit auth data) s in
  store s' = store s ∧
  match auth with
  | None => calls s' = calls s ∧ toasts s' = toasts s ∧ pushed s' = pushed s
  | Some a =>
      calls s' = calls s ++ [SignIn (get data "email") (get data "password")] ∧
      match signInWithEmailAndPassword a (get data "email") (get data "password") with
      | Ok _ => toasts s' = toasts s ++ [loggedIn] ∧ pushed s' = pushed s ++ ["/"]
      | Throw _ => pushed s' = pushed s
      end
  end.
Proof.
  intros s'. subst s'.
  unfold onLoginSubmit, request, setLoading, toast, router_push.
  destruct auth as [a|]; run; [|done].
  by destruct (signInWithEmailAndPassword a _ _).
Qed.

(** X4. [onSignupSubmit] with the provider's handle. A refused account
    creation, and equally a refused profile read or write after the
    account was created, is notified as ["Sign-up Failed"], with the
    curated text for the code [auth/email-already-in-use] and the error's
    own message otherwise; the page then neither navigates nor changes
    the store. Otherwise it notifies success and navigates home. The
    creation request is sent in every case. *)
Theorem onSignupSubmit_outcomes a firestore data s :
  let s' := exec (onSignupSubmit (Some a) firestore data) s in
  calls s' = calls s ++ [CreateUser (get data "email") (get data "password")] ∧
  match createUserWithEmailAndPassword a (get data "email") (get data "password") with
  | Throw err =>
      toasts s' = toasts s ++ [signupFailed err] ∧ pushed s' = pushed s ∧
      store s' = store s
  | Ok user =>
      match profileWriteError firestore (store s) user with
      | Some e =>
          toasts s' = toasts s ++ [signupFailed e] ∧ pushed s' = pushed s ∧
          store s' = store s
      | None =>
          toasts s' = toasts s ++ [signedUp] ∧ pushed s' = pushed s ++ ["/"]
      end
  end.
Proof.
  intros s'. subst s'.
  unfold onSignupSubmit, request, setLoading, toast, router_push. run.
  destruct (createUserWithEmailAndPassword a _ _) as [user|err]; cbn; [|done].
  match goal with
  | |- context [handleUserDoc firestore user ?ad ?s0] =>
      destruct (handleUserDoc_summary firestore user ad s0) as (b & Hb & _ & Hres);
      destruct (handleUserDoc firestore user ad s0) as [[[]|e] s1]
  end; cbn in *; subst s1; cbn;
    destruct (profileWriteError firestore (store s) user) as [e'|];
    try done; destruct Hres as [[= ->] ->]; done.
Qed.

(** X5. [handleGoogleSignIn] with the provider's handle. A refused popup
    or a refused profile read or write is notified as ["Google Sign-in
    Failed"] with the error's own message, uncurated, and the page
    neither navigates nor changes the store; otherwise it notifies
    success and navigates home. *)
Theorem handleGoogleSignIn_outcomes a firestore s :
  let s' := exec (handleGoogleSignIn (Some a) firestore) s in
  calls s' = calls s ++ [Popup] ∧
  match signInWithPopup a with
  | Throw err =>
      toasts s' = toasts s ++ [googleFailed err] ∧ pushed s' = pushed s ∧
      store s' = store s
  | Ok user =>
      match profileWriteError firestore (store s) user with
      | Some e =>
          toasts s' = toasts s ++ [googleFailed e] ∧ pushed s' = pushed s ∧
          store s' = store s
      | None =>
          toasts s' = toasts s ++ [signedInWithGoogle] ∧ pushed s' = pushed s ++ ["/"]
      end
  end.
Proof.
  intros s'. subst s'.
  unfold handleGoogleSignIn, request, setLoading, toast, router_push. run.
  destruct (signInWithPopup a) as [user|err]; cbn; [|done].
  match goal with
  | |- context [handleUserDoc firestore user ?ad ?s0] =>
      destruct (handleUserDoc_summary firestore user ad s0) as (b & Hb & _ & Hres);
      destruct (handleUserDoc firestore user ad s0) as [[[]|e] s1]
  end; cbn in *; subst s1; cbn;
    destruct (profileWriteError firestore (store s) user) as [e'|];
    try done; destruct Hres as [[= ->] ->]; done.
Qed.

(** X6. [handleForgotPassword] never touches the store. Without the
    provider's handle it sends nothing and notifies ["Firebase not
    initialized."]. With it, it sends one reset request; on success the
    dialog is closed and the confirmation shown; on failure the dialog is
    left as it was and the error shown, curated for the code
    [auth/user-not-found]. *)
Theorem handleForgotPassword_outcomes auth data s :
  let s' := exec (handleForgotPassword auth data) s in
  store s' = store s ∧ pushed s' = pushed s ∧
  match auth with
  | None =>
      calls s' = calls s ∧ toasts s' = toasts s ++ [notInitialized] ∧
      showForgotPassword s' = showForgotPassword s
  | Some a =>
      calls s' = calls s ++ [ResetEmail (get data "email")] ∧
      match sendPasswordResetEmail a (get data "email") with
      | Ok _ => toasts s' = toasts s ++ [resetSent] ∧ showForgotPassword s' = false
      | Throw err =>
          toasts s' = toasts s ++ [resetFailed err] ∧
          showForgotPassword s' = showForgotPassword s
      end
  end.
Proof.
  intros s'. subst s'.
  unfold handleForgotPassword, request, setLoading, setShowForgotPassword, toast. run.
  destruct auth as [a|]; cbn; [|done].
  by destruct (sendPasswordResetEmail a _).
Qed.

(** *** Validation before any request *)

Section Gates.
Context (rt : Runtime).
Import Zod ZodFacts.

Lemma login_parsed e p r :
  issues (oparse rt loginSchema (loginValues e p r))
  = (if isEmail rt e then [] else [mkIssue ["email"] "Invalid email address."])
    ++ (if (utf16Length p <? 1)%nat
        then [mkIssue ["password"] "Password is required."] else []) ∧
  get (value (oparse rt loginSchema (loginValues e p r))) "email" = VStr e ∧
  get (value (oparse rt loginSchema (loginValues e p r))) "password" = VStr p.
Proof.
  unfold loginSchema. cbn [oparse].
  assert (get (loginValues e p r) "email" = VStr e) as He by reflexivity.
  assert (get (loginValues e p r) "password" = VStr p) as Hp by reflexivity.
  assert (get (loginValues e p r) "rememberMe" = VBool r) as Hr by reflexivity.
  split; [|split].
  - rewrite !issues_parse_shape_cons, He, Hp, Hr.
    cbn [parse of_issues issues st value flat_map string_check app parse_shape].
    by destruct (isEmail rt e), (utf16Length p <? 1)%nat.
  - erewrite parse_shape_get;
      [|apply (bool_decide_unpack _); by vm_compute|by left]. by rewrite He.
  - erewrite parse_shape_get;
      [|apply (bool_decide_unpack _); by vm_compute|right; by left]. by rewrite Hp.
Qed.

Lemma onLoginSubmit_frame a data s :
  calls (exec (onLoginSubmit (Some a) data) s)
  = calls s ++ [SignIn (get data "email") (get data "password")] ∧
  loginErrors (exec (onLoginSubmit (Some a) data) s) = loginErrors s.
Proof.
  unfold onLoginSubmit, request, setLoading, toast, router_push. run.
  by destruct (signInWithEmailAndPassword a _ _).
Qed.

(** X7. Submitting the login form sends a sign-in request exactly when
    the address passes the e-mail check and the password is not empty,
    and then with the values typed in. Otherwise nothing is sent, notified
    or navigated: only the errors of the form are set. *)
Theorem submitLogin_validates_first a e p r s :
  let s' := exec (submitLogin rt (Some a) (loginValues e p r)) s in
  if loginValid rt e p
  then calls s' = calls s ++ [SignIn (VStr e) (VStr p)] ∧ loginErrors s' = []
  else calls s' = calls s ∧ toasts s' = toasts s ∧ pushed s' = pushed s ∧
       loading s' = loading s ∧ store s' = store s ∧ loginErrors s' ≠ [].
Proof.
  intros s'. subst s'. unfold submitLogin, handleSubmit, loginValid.
  rewrite safeParse_issues.
  destruct (login_parsed e p r) as (Hi & He & Hp). rewrite Hi.
  replace (1 <=? String.length p)%nat with (negb (utf16Length p <? 1)%nat)
    by (rewrite utf16Length_lt_1;
        destruct (Nat.ltb_spec (String.length p) 1), (Nat.leb_spec 1 (String.length p));
        (done || lia)).
  destruct (isEmail rt e), (utf16Length p <? 1)%nat; cbn [andb negb app]; try done.
  change (exec (modify (put_loginErrors []) ;; onLoginSubmit (Some a) ?d) s)
    with (exec (onLoginSubmit (Some a) d) (put_loginErrors [] s)).
  destruct (onLoginSubmit_frame a
              (value (oparse rt loginSchema (loginValues e p r)))
              (put_loginErrors [] s)) as [Hc He'].
  by rewrite Hc, He', He, Hp.
Qed.

Lemma forgot_parsed e :
  issues (oparse rt forgotPasswordSchema (forgotValues e))
  = (if isEmail rt e then []
     else [mkIssue ["email"] "Please enter a valid email address."]) ∧
  get (value (oparse rt forgotPasswordSchema (forgotValues e))) "email" = VStr e.
Proof.
  unfold forgotPasswordSchema. cbn [oparse].
  assert (get (forgotValues e) "email" = VStr e) as He by reflexivity.
  split.
  - rewrite !issues_parse_shape_cons, He.
    cbn [parse of_issues issues st value flat_map string_check app parse_shape].
    by destruct (isEmail rt e).
  - erewrite parse_shape_get;
      [|apply (bool_decide_unpack _); by vm_compute|by left]. by rewrite He.
Qed.

Lemma handleForgotPassword_frame a data s :
  calls (exec (handleForgotPassword (Some a) data) s)
  = calls s ++ [ResetEmail (get data "email")] ∧
  forgotErrors (exec (handleForgotPassword (Some a) data) s) = forgotErrors s.
Proof.
  unfold handleForgotPassword, request, setLoading, setShowForgotPassword, toast. run.
  by destruct (sendPasswordResetEmail a _).
Qed.

(** X8. Submitting the forgot-password dialog sends a reset request
    exactly when the address passes the e-mail check; otherwise nothing is
    sent or notified, the dialog stays as it is and only the errors of its
    form are set. *)
Theorem submitForgotPassword_validates_first a e s :
  let s' := exec (submitForgotPassword rt (Some a) (forgotValues e)) s in
  if isEmail rt e
  then calls s' = calls s ++ [ResetEmail (VStr e)] ∧ forgotErrors s' = []
  else calls s' = calls s ∧ toasts s' = toasts s ∧
       showForgotPassword s' = showForgotPassword s ∧
       loading s' = loading s ∧ forgotErrors s' ≠ [].
Proof.
  intros s'. subst s'. unfold submitForgotPassword, handleSubmit.
  rewrite safeParse_issues.
  destruct (forgot_parsed e) as (Hi & He). rewrite Hi.
  destruct (isEmail rt e); cbn [app]; try done.
  change (exec (modify (put_forgotErrors []) ;; handleForgotPassword (Some a) ?d) s)
    with (exec (handleForgotPassword (Some a) d) (put_forgotErrors [] s)).
  destruct (handleForgotPassword_frame a
              (value (oparse rt forgotPasswordSchema (forgotValues e)))
              (put_forgotErrors [] s)) as [Hc He'].
  by rewrite Hc, He', He.
Qed.

Lemma signupValid_spec i :
  signupValid rt i = true
  ↔ ∃ data, safeParse rt signupSchema (formValues i) = Success data.
Proof.
  rewrite AccountSpec.signup_accepts_iff. unfold signupValid.
  rewrite !andb_true_iff, !Nat.leb_le, String.eqb_eq.
  destruct (in_agreeToTerms i); intuition.
Qed.

(** X9. With the provider's handle, submitting the signup form sends an
    account-creation request exactly when all six conditions of the
    schema hold (name of length at least 2, accepted e-mail, phone of
    length at least 10, password of length at least 6, terms accepted,
    confirmation equal), lengths being JavaScript's, in UTF-16 units; and
    then with the address and password typed in. Otherwise nothing is
    sent, notified, navigated or stored. *)
Theorem submitSignup_validates_first a firestore i s :
  let s' := exec (submitSignup rt (Some a) firestore (formValues i)) s in
  if signupValid rt i
  then calls s' = calls s ++ [CreateUser (VStr (in_email i)) (VStr (in_password i))]
  else calls s' = calls s ∧ toasts s' = toasts s ∧ pushed s' = pushed s ∧
       loading s' = loading s ∧ store s' = store s ∧ signupErrors s' ≠ [].
Proof.
  intros s'. subst s'.
  destruct (signupValid rt i) eqn:Hv.
  - apply signupValid_spec in Hv as [data Hd].
    unfold submitSignup, handleSubmit. rewrite Hd.
    destruct (AccountSpec.signup_parsed_credentials rt i data Hd) as [Hem Hpw].
    change (exec (modify (put_signupErrors []) ;; onSignupSubmit (Some a) firestore data) s)
      with (exec (onSignupSubmit (Some a) firestore data) (put_signupErrors [] s)).
    by rewrite AccountSpec.onSignupSubmit_calls, Hem, Hpw.
  - assert (issues (oparse rt signupSchema (formValues i)) ≠ []) as Hne.
    { intros Hnil. apply not_true_iff_false in Hv. apply Hv, signupValid_spec.
      rewrite safeParse_issues, Hnil. by eexists. }
    unfold submitSignup, handleSubmit. rewrite safeParse_issues.
    by destruct (issues (oparse rt signupSchema (formValues i))).
Qed.

(** The profile written at signup, field by field. *)
Lemma signup_profile_fields user t n p :
  let d := resolve t (newProfile user
                        (Some (<["name" := VStr n]> (<["phone" := VStr p]> ∅)))) in
  d !! "uid" = Some (VStr (uid user)) ∧
  d !! "name" = Some (VStr n) ∧
  d !! "phone" = Some (VStr p) ∧
  d !! "role" = Some (VStr "customer") ∧
  d !! "createdAt" = Some (VTime t) ∧
  dom d = {["uid"; "email"; "name"; "phone"; "role"; "createdAt"]}.
Proof.
  intros d. subst d. repeat split; reflexivity.
Qed.

Lemma signup_parsed_profile i data :
  safeParse rt signupSchema (formValues i) = Success data →
  get data "name" = VStr (in_name i) ∧ get data "phone" = VStr (in_phone i).
Proof.
  rewrite safeParse_issues. destruct (issues _); [|done]. intros <-%Success_inj.
  rewrite AccountSpec.value_signup_parsed.
  destruct (AccountSpec.get_formValues i) as (Hn & _ & Hp & _).
  split.
  - erewrite parse_shape_get;
      [|apply (bool_decide_unpack _); by vm_compute|unfold signupShape; by left].
    by rewrite Hn.
  - erewrite parse_shape_get;
      [|apply (bool_decide_unpack _); by vm_compute
       |unfold signupShape; do 2 right; by left].
    by rewrite Hp.
Qed.

(** X10. A valid signup whose account is created, for a uid without a
    profile and with a store that accepts the read and the write, stores
    a profile of exactly six fields: the uid, the e-mail, the name and the
    phone typed into the form (whatever display name or phone number the
    provider reports), the role ["customer"] and the server's time as
    [createdAt]; the page then notifies success and navigates home. *)
Theorem signup_stores_profile_of_the_form a h i user s :
  signupValid rt i = true →
  createUserWithEmailAndPassword a (VStr (in_email i)) (VStr (in_password i)) = Ok user →
  docs (store s) !! userRef user = None →
  rejects (store s) (Get (userRef user)) = None →
  rejects (store s) (Set_ (userRef user)) = None →
  let s' := exec (submitSignup rt (Some a) (Some h) (formValues i)) s in
  (∃ d, docs (store s') !! userRef user = Some d ∧
        d !! "uid" = Some (VStr (uid user)) ∧
        d !! "name" = Some (VStr (in_name i)) ∧
        d !! "phone" = Some (VStr (in_phone i)) ∧
        d !! "role" = Some (VStr "customer") ∧
        d !! "createdAt" = Some (VTime (now (store s))) ∧
        dom d = {["uid"; "email"; "name"; "phone"; "role"; "createdAt"]}) ∧
  toasts s' = toasts s ++ [signedUp] ∧ pushed s' = pushed s ++ ["/"].
Proof.
  intros Hv Hcreate Hd Hg Hs s'. subst s'.
  apply signupValid_spec in Hv as [data Hdata].
  unfold submitSignup, handleSubmit. rewrite Hdata.
  destruct (AccountSpec.signup_parsed_credentials rt i data Hdata) as [Hem Hpw].
  destruct (signup_parsed_profile i data Hdata) as [Hn Hp].
  change (exec (modify (put_signupErrors []) ;; onSignupSubmit (Some a) (Some h) data) s)
    with (exec (onSignupSubmit (Some a) (Some h) data) (put_signupErrors [] s)).
  unfold onSignupSubmit, request, setLoading, toast, router_push. run.
  rewrite Hem, Hpw, Hn, Hp, Hcreate. cbv beta iota zeta.
  rewrite handleUserDoc_cases. unfold put_signupErrors. cbn [store].
  rewrite Hg, Hd, Hs. cbn.
  split; [|done].
  eexists. split; [apply lookup_insert_eq|]. apply signup_profile_fields.
Qed.

End Gates.

(** A name of one CJK character, three bytes in UTF-8, has length 1 and
    is refused; two such characters are accepted. *)
Example signup_counts_utf16_units :
  let li := String (ascii_of_nat 230) (String (ascii_of_nat 157)
              (String (ascii_of_nat 142) EmptyString)) in
  signupValid runtime
    (mkSignup li "li@example.com" "9876543210" "secret1" "secret1" true) = false ∧
  signupValid runtime
    (mkSignup (li +:+ li) "li@example.com" "9876543210" "secret1" "secret1" true) = true.
Proof. by vm_compute. Qed.

(** The scenario: Asha signs up with a valid form; the provider creates
    her account. *)
Lemma signup_stores_profile_of_the_form_witness :
  docs (store (exec (submitSignup runtime (Some provider) (Some App)
                       (formValues (mkSignup "Asha" "asha@example.com" "9876543210"
                                      "secret1" "secret1" true)))
                 (freshPage emptyBackend))) !! userRef asha ≫= (.!! "name")
  = Some (VStr "Asha").
Proof.
  destruct (signup_stores_profile_of_the_form runtime provider App
              (mkSignup "Asha" "asha@example.com" "9876543210" "secret1" "secret1" true)
              asha (freshPage emptyBackend))
    as [(d & Hd & _ & Hn & _) _];
    [reflexivity|reflexivity|reflexivity|reflexivity|reflexivity|].
  rewrite Hd. exact Hn.
Defined.

(** *** Roles *)

Lemma created_role user ad t :
  ad = None ∨ (∃ data, ad = signupData data) →
  get (resolve t (newProfile user ad)) "role" = VStr "customer".
Proof. intros [->|[data ->]]; reflexivity. Qed.

Lemma handleUserDoc_no_admin firestore user ad s :
  ad = None ∨ (∃ data, ad = signupData data) →
  docs (store s) !! userRef user = None →
  AccountView.showsAdminLink
    (docs (store (handleUserDoc firestore user ad s).2) !! userRef user) = false.
Proof.
  intros Had Hd. rewrite handleUserDoc_cases.
  destruct firestore; [|cbn [snd]; by rewrite Hd].
  destruct (rejects (store s) (Get _)); [cbn [snd]; by rewrite Hd|]. rewrite Hd.
  destruct (rejects (store s) (Set_ _)); [cbn [snd]; by rewrite Hd|].
  cbn. rewrite lookup_insert_eq. cbn. by rewrite created_role.
Qed.

(** X11. No profile created by this page opens the admin dashboard: for
    a user without a profile, after a sign-up or a Google sign-in,
    whatever the store answers, the profile of that user is absent or has
    a role for which the admin link is not rendered. *)
Theorem created_profiles_are_not_admin a firestore data s user :
  docs (store s) !! userRef user = None →
  (createUserWithEmailAndPassword a (get data "email") (get data "password") = Ok user →
   AccountView.showsAdminLink
     (docs (store (exec (onSignupSubmit (Some a) firestore data) s)) !! userRef user)
   = false) ∧
  (signInWithPopup a = Ok user →
   AccountView.showsAdminLink
     (docs (store (exec (handleGoogleSignIn (Some a) firestore) s)) !! userRef user)
   = false).
Proof.
  intros Hd. split; intros Hok;
    unfold onSignupSubmit, handleGoogleSignIn, request, setLoading, toast, router_push;
    run; rewrite Hok; cbv beta iota zeta.
  - match goal with
    | |- context [handleUserDoc firestore user ?ad ?s0] =>
        pose proof (handleUserDoc_no_admin firestore user ad s0) as Hh;
        destruct (handleUserDoc firestore user ad s0) as [[[]|e] s1]
    end; cbn in *; apply Hh; try done; right; by eexists.
  - match goal with
    | |- context [handleUserDoc firestore user ?ad ?s0] =>
        pose proof (handleUserDoc_no_admin firestore user ad s0) as Hh;
        destruct (handleUserDoc firestore user ad s0) as [[[]|e] s1]
    end; cbn in *; apply Hh; try done; by left.
Qed.

Lemma created_profiles_are_not_admin_witness :
  AccountView.showsAdminLink
    (docs (store (exec (handleGoogleSignIn (Some provider) (Some App))
                    (freshPage emptyBackend))) !! userRef alice) = false.
Proof.
  destruct (created_profiles_are_not_admin provider (Some App) ∅
              (freshPage emptyBackend) alice) as [_ H]; [reflexivity|].
  apply H. reflexivity.
Defined.

(** *** Signing out *)

(** X12. [handleLogout] has no handler for a failed sign-out: the error
    escapes, and nothing is notified or navigated. After a successful
    sign-out it notifies ["Logged Out"] and navigates home; without the
    provider's handle it does nothing at all. *)
Theorem handleLogout_outcomes auth answer s :
  match auth with
  | None => AccountView.handleLogout None answer s = (Ok tt, s)
  | Some a =>
      let s' := exec (AccountView.handleLogout auth answer) s in
      AccountView.signOuts s' = S (AccountView.signOuts s) ∧
      match answer a with
      | Ok _ =>
          result (AccountView.handleLogout auth answer) s = Ok tt ∧
          AccountView.toasts s' = AccountView.toasts s ++ [loggedOut] ∧
          AccountView.pushed s' = AccountView.pushed s ++ ["/"]
      | Throw e =>
          result (AccountView.handleLogout auth answer) s = Throw e ∧
          AccountView.toasts s' = AccountView.toasts s ∧
          AccountView.pushed s' = AccountView.pushed s
      end
  end.
Proof.
  destruct auth as [a|]; [|done].
  unfold AccountView.handleLogout, AccountView.signOut, AccountView.toast,
    AccountView.router_push. run.
  by destruct (answer a) as [[]|e].
Qed.

Example logout_failure_escapes :
  AccountView.handleLogout (Some provider) signOutFails freshView
  = (Throw (mkErr "auth/network-request-failed" "A network error has occurred."),
     AccountView.mkView [] [] 1).
Proof. reflexivity. Qed.

End AccountMore.

(** ** The banner administration page *)

Module BannersMore.
Import Banners BannerOutcomes Samples.

(** *** Deleting *)

(** X13. [handleDelete] never lets an error escape and never changes the
    dialog or the loading flag. When the store accepts, the banner's
    document is gone, every other document is as before, and ["Banner
    deleted"] is notified; when it refuses, the store is unchanged and the
    error's message is notified. Without a store handle nothing happens. *)
Theorem handleDelete_outcomes firestore banner s :
  match firestore with
  | None => handleDelete None banner s = (Ok tt, s)
  | Some _ =>
      let s' := exec (handleDelete firestore banner) s in
      result (handleDelete firestore banner) s = Ok tt ∧
      open s' = open s ∧ loading s' = loading s ∧ finished s' = finished s ∧
      match rejects (store s) (Delete (bannerRef banner)) with
      | Some e => store s' = store s ∧ toasts s' = toasts s ++ [deleteFailed e]
      | None =>
          docs (store s') !! bannerRef banner = None ∧
          (∀ r, r ≠ bannerRef banner → docs (store s') !! r = docs (store s) !! r) ∧
          toasts s' = toasts s ++ [deleted]
      end
  end.
Proof.
  destruct firestore as [h|]; [|done].
  unfold handleDelete, onStore, deleteDoc, toast, bannerRef. run.
  destruct (rejects (store s) _); cbn; [done|].
  repeat split; try done.
  - apply lookup_delete_eq.
  - intros r Hr. by apply lookup_delete_ne.
Qed.

(** *** Creating *)

Section Form.
Context (rt : Runtime).
Import Zod ZodFacts.

(** X14. A creation that validates and that the store accepts adds one
    document under the generated id: the validated fields, with
    [createdAt] and [updatedAt] both at the server's time. Every other
    document is as before; the dialog is closed, [onFinished] was called
    once, and ["Banner added successfully"] is notified. *)
Theorem create_adds_one_document h values data s :
  safeParse rt bannerSchema values = Success data →
  rejects (store s) (Add "banners") = None →
  let s' := exec (submit rt (Some h) None values) s in
  let new := resolve (now (store s)) (createPayload data) in
  docs (store s') = <[createdRef (store s) := new]> (docs (store s)) ∧
  new !! "createdAt" = Some (VTime (now (store s))) ∧
  new !! "updatedAt" = Some (VTime (now (store s))) ∧
  dom new = dom data ∪ {["createdAt"; "updatedAt"]} ∧
  open s' = false ∧ finished s' = S (finished s) ∧ loading s' = false ∧
  toasts s' = toasts s ++ [savedToast None].
Proof.
  intros Hok Hadd s' new. subst s' new.
  unfold submit, handleSubmit. rewrite Hok.
  change (exec (modify (put_errors []) ;; onSubmit (Some h) None (setOpen false) data) s)
    with (exec (onSubmit (Some h) None (setOpen false) data) (put_errors [] s)).
  unfold onSubmit, onStore, call_onFinished, setLoading, setOpen, toast, addDoc,
    createdRef, put_errors.
  run. cbn. rewrite Hadd. cbn.
  repeat split; try done.
  - unfold resolve, createPayload. by rewrite lookup_fmap, lookup_insert_ne, lookup_insert_eq.
  - unfold resolve, createPayload. by rewrite lookup_fmap, lookup_insert_eq.
  - unfold resolve, createPayload. rewrite dom_fmap_L, !dom_insert_L.
    apply set_eq. intros k. rewrite !elem_of_union, !elem_of_singleton. tauto.
Qed.

(** X15. Values that do not validate never reach the store: submitting
    them, for a creation or an edit, with or without a store handle, only
    sets the errors of the form. In particular an empty title is refused
    with ["Title is required"]. *)
Theorem invalid_banner_is_not_written firestore banner values s :
  get values "title" = VStr EmptyString →
  ∃ errs,
    mkIssue ["title"] "Title is required" ∈ errs ∧
    exec (submit rt firestore banner values) s = put_errors errs s ∧
    result (submit rt firestore banner values) s = Ok tt.
Proof.
  intros Ht. exists (issues (oparse rt bannerSchema values)).
  assert (mkIssue ["title"] "Title is required" ∈ issues (oparse rt bannerSchema values))
    as Hin.
  { unfold bannerSchema, bannerShape. cbn [oparse].
    rewrite issues_parse_shape_cons, Ht. cbn. by left. }
  split; [done|].
  unfold submit, handleSubmit. rewrite safeParse_issues.
  destruct (issues (oparse rt bannerSchema values)); [by apply elem_of_nil in Hin|done].
Qed.

(** X16. Submitting the form never lets an error escape: validation
    failures become errors of the form, and whatever the store refuses is
    caught and notified. *)
Theorem submit_never_throws firestore banner values s :
  result (submit rt firestore banner values) s = Ok tt.
Proof.
  unfold submit, handleSubmit. destruct (safeParse rt bannerSchema values); [|done].
  unfold onSubmit, onStore, call_onFinished, setLoading, setOpen, toast, updateDoc, addDoc.
  destruct firestore as [h|]; [|done].
  destruct banner as [b|]; run; cbn.
  - destruct (rejects (store s) _); cbn; [done|].
    by destruct (docs (store s) !! _).
  - by destruct (rejects (store s) _).
Qed.

End Form.

Lemma create_adds_one_document_witness :
  docs (store (exec (submit runtime (Some App) None saleValues) (freshForm emptyBackend)))
    !! createdRef emptyBackend ≫= (λ d, Some (get d "title", get d "createdAt", get d "updatedAt"))
  = Some (VStr "Sale", VTime 1700000000, VTime 1700000000).
Proof.
  destruct (create_adds_one_document runtime App saleValues
              (Zod.value (Zod.oparse runtime bannerSchema saleValues))
              (freshForm emptyBackend)) as (Hdocs & _); [by vm_compute|reflexivity|].
  rewrite Hdocs. by vm_compute.
Defined.

Lemma invalid_banner_is_not_written_witness :
  docs (store (exec (submit runtime (Some App) None blankValues) (freshForm emptyBackend)))
  = ∅.
Proof.
  destruct (invalid_banner_is_not_written runtime (Some App) None blankValues
              (freshForm emptyBackend)) as (errs & _ & Hexec & _); [reflexivity|].
  by rewrite Hexec.
Defined.

(** *** The schema, field by field *)

Section SchemaMore.
Context (rt : Runtime).
Import Zod ZodFacts.

Lemma title_issues p v :
  issues (parse rt (string_ [min 1 "Title is required"]) p v) = []
  ↔ titleOk v = true.
Proof.
  destruct v as [| | | |t| |]; try (cbn; split; intros; discriminate).
  cbn [parse of_issues flat_map string_check issues app titleOk].
  rewrite utf16Length_lt_1.
  destruct t; cbn; split; intros; (done || discriminate).
Qed.

Lemma optional_string_issues p v :
  issues (parse rt (optional (string_ [])) p v) = [] ↔ optionalString v = true.
Proof. destruct v; cbn; split; intros; (done || discriminate). Qed.

Lemma imageUrl_issues p v :
  issues (parse rt (string_ [url "Must be a valid URL"]) p v) = []
  ↔ imageUrlOk rt v = true.
Proof.
  destruct v as [| | | |u| |]; cbn; try (split; intros; discriminate).
  destruct (isUrl rt u); cbn; split; intros; (done || discriminate).
Qed.

Lemma isActive_issues p v :
  issues (parse rt (default_ boolean (VBool true)) p v) = []
  ↔ optionalBoolean v = true.
Proof. destruct v; cbn; split; intros; (done || discriminate). Qed.

Lemma coerce_int_issues p w :
  issues (parse rt (coerce_number [int]) p w) = [] ↔ isInteger (toNumber rt w) = true.
Proof.
  cbn [parse]. destruct (toNumber rt w) as [|neg|q]; [by split|by split|].
  cbn [flat_map number_check of_issues issues app].
  destruct (isInteger (Fin q)); by split.
Qed.

Lemma sortOrder_issues p v :
  issues (parse rt (default_ (coerce_number [int]) (VNum (of_Z 0))) p v) = []
  ↔ sortOrderOk rt v = true.
Proof.
  destruct v; cbn [parse]; try apply coerce_int_issues.
Qed.

Lemma bannerValuesOk_spec values :
  (∃ data, safeParse rt bannerSchema values = Success data)
  ↔ bannerValuesOk rt values = true.
Proof.
  rewrite safeParse_issues.
  assert (issues (oparse rt bannerSchema values) = [] ↔ bannerValuesOk rt values = true)
    as <-.
  { unfold bannerSchema, bannerShape, bannerValuesOk. cbn [oparse].
    rewrite !issues_parse_shape_cons. cbn [parse_shape issues].
    rewrite !app_nil, !andb_true_iff.
    rewrite title_issues, !optional_string_issues, imageUrl_issues, isActive_issues,
      sortOrder_issues.
    split.
    - intros (H1&H2&H3&H4&H5&H6&H7&_).
      exact (conj (conj (conj (conj (conj (conj H1 H2) H3) H4) H5) H6) H7).
    - intros ((((((H1&H2)&H3)&H4)&H5)&H6)&H7).
      exact (conj H1 (conj H2 (conj H3 (conj H4 (conj H5 (conj H6 (conj H7 eq_refl))))))). }
  destruct (issues (oparse rt bannerSchema values)); split; intros H; eauto; try done.
  by destruct H.
Qed.

(** X17. The banner schema accepts the values of the form exactly when
    the title is a string of at least one character, the image URL a
    string the URL check accepts, subtitle and the two call-to-action
    fields strings or absent, [isActive] a boolean or absent, and
    [sortOrder] absent or a value whose [Number(...)] is an integer. *)
Theorem bannerSchema_accepts_iff values :
  (∃ data, safeParse rt bannerSchema values = Success data)
  ↔ titleOk (get values "title") = true
    ∧ optionalString (get values "subtitle") = true
    ∧ imageUrlOk rt (get values "imageUrl") = true
    ∧ optionalString (get values "ctaLabel") = true
    ∧ optionalString (get values "ctaLink") = true
    ∧ optionalBoolean (get values "isActive") = true
    ∧ sortOrderOk rt (get values "sortOrder") = true.
Proof.
  rewrite bannerValuesOk_spec. unfold bannerValuesOk. rewrite !andb_true_iff.
  split.
  - intros ((((((H1&H2)&H3)&H4)&H5)&H6)&H7).
    exact (conj H1 (conj H2 (conj H3 (conj H4 (conj H5 (conj H6 H7)))))).
  - intros (H1&H2&H3&H4&H5&H6&H7).
    exact (conj (conj (conj (conj (conj (conj H1 H2) H3) H4) H5) H6) H7).
Qed.

Lemma optional_string_value p v :
  optionalString v = true → value (parse rt (optional (string_ [])) p v) = v.
Proof. by destruct v. Qed.

(** X18. Validation hands the text fields on as they were typed, drops
    every key the schema does not name, and fills in [isActive] with
    [true] when the form has none. *)
Theorem bannerSchema_passes_fields_through values data :
  safeParse rt bannerSchema values = Success data →
  get data "title" = get values "title" ∧
  get data "subtitle" = get values "subtitle" ∧
  get data "imageUrl" = get values "imageUrl" ∧
  get data "ctaLabel" = get values "ctaLabel" ∧
  get data "ctaLink" = get values "ctaLink" ∧
  get data "isActive"
  = match get values "isActive" with VUndef => VBool true | v => v end ∧
  dom data ⊆ {["title"; "subtitle"; "imageUrl"; "ctaLabel"; "ctaLink"; "isActive";
               "sortOrder"]}.
Proof.
  intros Hok.
  assert (bannerValuesOk rt values = true) as Hv
    by (apply bannerValuesOk_spec; by exists data).
  unfold bannerValuesOk in Hv. rewrite !andb_true_iff in Hv.
  destruct Hv as ((((((Ht&Hs)&Hu)&Hl)&Hk)&Ha)&_).
  revert Hok. rewrite safeParse_issues.
  destruct (issues (oparse rt bannerSchema values)); [|done]. intros <-%Success_inj.
  change (oparse rt bannerSchema values) with (parse_shape rt bannerShape values).
  pose proof BannersSpec.bannerShape_NoDup as Hnd.
  split; [|split; [|split; [|split; [|split; [|split]]]]].
  - erewrite parse_shape_get; [|done|by left].
    by destruct (get values "title").
  - erewrite parse_shape_get; [|done|do 1 right; by left].
    by apply optional_string_value.
  - erewrite parse_shape_get; [|done|do 2 right; by left].
    by destruct (get values "imageUrl").
  - erewrite parse_shape_get; [|done|do 3 right; by left].
    by apply optional_string_value.
  - erewrite parse_shape_get; [|done|do 4 right; by left].
    by apply optional_string_value.
  - erewrite parse_shape_get; [|done|do 5 right; by left].
    by destruct (get values "isActive").
  - intros k Hk'. apply elem_of_dom in Hk' as [v Hkv].
    destruct (decide (k ∈ bannerShape.*1)) as [Hin|Hout].
    + unfold bannerShape in Hin. cbn in Hin.
      rewrite !elem_of_cons in Hin. rewrite !elem_of_union, !elem_of_singleton.
      rewrite elem_of_nil in Hin. tauto.
    + by rewrite (parse_shape_strips rt bannerShape values k Hout) in Hkv.
Qed.

End SchemaMore.

Lemma bannerSchema_passes_fields_through_witness :
  get (Zod.value (Zod.oparse runtime bannerSchema editValues)) "title" = VStr "Big sale" ∧
  get (Zod.value (Zod.oparse runtime bannerSchema editValues)) "isActive" = VBool true.
Proof.
  destruct (bannerSchema_passes_fields_through runtime editValues
              (Zod.value (Zod.oparse runtime bannerSchema editValues)))
    as (Ht & _ & _ & _ & _ & Ha & _); [by vm_compute|].
  split; [exact Ht|exact Ha].
Defined.

(** *** The table *)

(** X19. What the table shows, with a store handle: three placeholder
    rows and nothing else while the first snapshot is pending; the single
    row ["No banners found."] for an empty snapshot; otherwise one row per
    document of the snapshot and nothing else. (The hook is the one
    modelled from the spec.) *)
Theorem table_rows h sub :
  match sub with
  | Pending => BannersPage (Some h) sub = [SkeletonRow 0; SkeletonRow 1; SkeletonRow 2]
  | Snapshot [] => BannersPage (Some h) sub = [EmptyRow]
  | Snapshot documents =>
      BannersPage (Some h) sub = BannerRow <$> rendered (BannersPage (Some h) sub) ∧
      length (BannersPage (Some h) sub) = length documents
  end.
Proof.
  destruct sub as [|[|b documents]]; [done|done|].
  rewrite BannersSpec.rendered_rows.
  unfold BannersPage. cbn [bannersQuery useCollection data isLoading orderings negb andb
    default].
  set (sorted := merge_sort _ _).
  assert (length sorted = length (b :: documents)) as Hlen
    by (subst sorted; by rewrite merge_sort_Permutation).
  destruct sorted as [|b' sorted']; [done|].
  cbn [length Nat.eqb app]. rewrite app_nil_r. split; [done|].
  by rewrite length_fmap.
Qed.

End BannersMore.

(** ** The suggestion flow *)

Module SuggestMore.
Import Suggest PromptText.

Lemma strings_of_strings l : strings (JStr <$> l) = Some l.
Proof. induction l as [|x l IH]; [done|]. cbn. by rewrite IH. Qed.

Lemma strings_inv items l : strings items = Some l → items = JStr <$> l.
Proof.
  revert l. induction items as [|j items IH]; intros l; cbn.
  - by intros [= <-].
  - destruct j; try done. destruct (strings items) as [l'|]; [|done].
    intros [= <-]. cbn. f_equal. by apply IH.
Qed.

(** The outputs the schema accepts: the objects whose [suggestions] is an
    array of strings, whatever else they hold. *)
Lemma parseOutput_spec j o :
  parseOutput j = Some o
  ↔ ∃ fields, j = JObj fields ∧
              jassoc "suggestions" fields = Some (JArr (JStr <$> suggestions o)).
Proof.
  split.
  - destruct j as [| | | | |fields]; try done. cbn.
    destruct (jassoc "suggestions" fields) as [[| | | |items|]|] eqn:Hj; try done.
    destruct (strings items) as [l|] eqn:Hs; [|done]. intros [= <-].
    exists fields. split; [done|]. rewrite Hj. cbn. do 2 f_equal. by apply strings_inv.
  - intros (fields & -> & Hj). cbn. rewrite Hj, strings_of_strings. by destruct o.
Qed.

(** X20. Whenever the flow returns a result, the model's answer to its
    request was an object whose [suggestions] is an array of strings, and
    the result is that very list: same strings, same order, nothing
    added, removed or merged. *)
Theorem flow_returns_the_model_suggestions noEscape (model : Model) input (sent : Sent) o :
  (suggestCompatibleProducts noEscape model input sent).1 = Ok o →
  ∃ fields,
    model (length sent) (renderPrompt noEscape input) = Ok (JObj fields) ∧
    jassoc "suggestions" fields = Some (JArr (JStr <$> suggestions o)).
Proof.
  unfold suggestCompatibleProducts, suggestCompatibleProductsFlow, defineFlow, prompt.
  run.
  destruct (model (length sent) (renderPrompt noEscape input)) as [j|e]; cbn; [|done].
  destruct (parseOutput j) as [o'|] eqn:Hp; cbn; [|done].
  intros [= <-]. apply parseOutput_spec in Hp as (fields & -> & Hj). by exists fields.
Qed.

Lemma flow_returns_the_model_suggestions_witness :
  ∃ fields,
    Samples.helpfulModel 0 (renderPrompt true Samples.laptopRequest) = Ok (JObj fields) ∧
    jassoc "suggestions" fields
    = Some (JArr [JStr "Laptop sleeve"; JStr "USB-C hub"]).
Proof.
  apply (flow_returns_the_model_suggestions true Samples.helpfulModel Samples.laptopRequest []
           (mkOutput ["Laptop sleeve"; "USB-C hub"])).
  reflexivity.
Defined.

(** *** The prompt *)

(** The rendered prompt in terms of the template's own interpolation. *)
Lemma prompt_rendered noEscape i :
  renderPrompt noEscape i
  = preamble
    +:+ match cartItems i with
        | Some (x :: items) => concat (itemLine noEscape <$> (x :: items))
        | _ => noItemsLine
        end
    +:+ nl +:+ "  Requirements: "
    +:+ match requirements i with
        | Some r => interpolate noEscape (HStr r)
        | None => EmptyString
        end
    +:+ nl +:+ nl +:+ "  Suggestions:".
Proof.
  unfold renderPrompt, renderAll, promptTemplate.
  cbn [fmap list_fmap concat foldr].
  rewrite SuggestSpec.cartSection_rendered.
  change (render noEscape (context i) (Mustache ["requirements"]))
    with (interpolate noEscape (lookup_path (context i) ["requirements"])).
  rewrite SuggestSpec.context_requirements.
  destruct (requirements i); reflexivity.
Qed.

Lemma escapeChar_plain c : special c = false → escapeChar c = String c EmptyString.
Proof.
  unfold special, escapeChar. rewrite !orb_false_iff.
  intros ((((((-> & ->) & ->) & ->) & ->) & ->) & ->). reflexivity.
Qed.

Lemma escapeExpression_plain s : plain s = true → escapeExpression s = s.
Proof.
  induction s as [|c s IH]; [done|]. cbn [plain escapeExpression].
  rewrite andb_true_iff, negb_true_iff. intros [Hc Hs].
  rewrite (escapeChar_plain c Hc), (IH Hs). reflexivity.
Qed.

Lemma interpolate_plain noEscape s :
  plain s = true → interpolate noEscape (HStr s) = s.
Proof. destruct noEscape; [done|]. apply escapeExpression_plain. Qed.

Lemma itemLines_plain noEscape items :
  forallb (λ i, plain (name i) && plain (description i)) items = true →
  concat (itemLine noEscape <$> items) = concat (itemText <$> items).
Proof.
  induction items as [|i items IH]; [done|]. cbn [forallb].
  rewrite !andb_true_iff. intros [[Hn Hd] Hrest].
  cbn [fmap list_fmap concat foldr]. f_equal; [|by apply IH].
  unfold itemLine, itemText. by rewrite !interpolate_plain.
Qed.

(** X21. The rendered prompt. When the template does not escape, for
    every request the prompt is the fixed preamble, one line
    [- name: description] per cart item, in the order of the cart and with
    the name and the description as they are (or the line ["No items in
    cart."]), then the requirements, as they are, after their label, then
    the closing label. When it escapes, the prompt is the same for every
    request whose texts hold none of the seven escaped characters. In both
    modes optional fields that are absent render exactly as empty ones. *)
Theorem prompt_shape input :
  renderPrompt true input
  = preamble +:+ cartText input +:+ nl +:+ "  Requirements: "
    +:+ default EmptyString (requirements input) +:+ nl +:+ nl +:+ "  Suggestions:"
  ∧ (plainInput input = true → renderPrompt false input = renderPrompt true input)
  ∧ ∀ noEscape,
      renderPrompt noEscape input
      = renderPrompt noEscape
          (mkInput (Some (default [] (cartItems input)))
                   (Some (default EmptyString (requirements input)))).
Proof.
  split; [|split].
  - rewrite prompt_rendered. unfold cartText.
    destruct (cartItems input) as [[|i items]|], (requirements input) as [r|]; reflexivity.
  - unfold plainInput. rewrite andb_true_iff. intros [Hitems Hreq].
    rewrite !prompt_rendered.
    destruct (cartItems input) as [[|i items]|], (requirements input) as [r|];
      cbn [default] in *; rewrite ?(itemLines_plain false), ?(itemLines_plain true),
      ?(interpolate_plain false), ?(interpolate_plain true); done.
  - intros noEscape. rewrite !prompt_rendered. cbn [cartItems requirements].
    destruct (cartItems input) as [[|i items]|], (requirements input) as [r|];
      try reflexivity; by destruct noEscape.
Qed.

(** The prompt for one laptop in the cart and a requirement. *)
Example prompt_sample :
  renderPrompt true Samples.laptopRequest
  = preamble +:+ "      - Laptop: 15 inch" +:+ nl +:+ nl
    +:+ "  Requirements: USB-C only" +:+ nl +:+ nl +:+ "  Suggestions:".
Proof. reflexivity. Qed.

End SuggestMore.
